(** * A shallow embedding of [vcd_parser_axi.py]

    The development models the line-oriented VCD reader [parse_vcd] and the
    read-only consumer [analyze_signal], and states the behaviour of the
    reader as theorems over that model.

    Modelling conventions.
    - A character is an 8-bit code point ([ascii], i.e. the Latin-1 range of
      Python's [str]); a line is a [string].
    - The opened file is the list of lines its iteration yields.  Opening
      and decoding the file happen before, respectively below, the loop and
      are not part of the model.
    - Python exceptions are the constructors of [exn]; a computation that
      may raise returns a [result].
    - [signals] is a Python [dict], whose iteration order (insertion order)
      is observed by [analyze_signal]; it is an association list that keeps
      the position of a key on overwrite.  [timeline] is a
      [defaultdict(list)] that is only ever indexed, a [gmap] read with the
      total lookup [!!!] (the default of a list is the empty list).
    - [print] calls of the reader are not modelled: none of them can raise.
      What [analyze_signal] prints is returned as a structured [report];
      the formatting of an integer, which raises beyond the digit limit of
      the interpreter, is part of the model.
    - A [float] is an IEEE 754 double, a [spec_float] with precision 53 and
      the operations of [SpecFloat], which round to nearest, ties to even. *)

From Stdlib Require Import ZArith Ascii String Sorted SpecFloat.
From stdpp Require Import gmap strings list.

Local Open Scope Z_scope.

(** ** Exceptions *)

Inductive exn : Set :=
| IndexError
| ValueError
| ZeroDivisionError
| OverflowError.

Inductive result (A : Type) : Type :=
| Ok (a : A)
| Raise (e : exn).

Arguments Ok {A} a.
Arguments Raise {A} e.

(** Sequencing stops at the first exception; [x ← m; k] is the notation. *)
#[global] Instance result_bind : MBind result := fun A B k m =>
  match m with
  | Ok a => k a
  | Raise e => Raise e
  end.

(** ** The built-ins of Python the program uses *)

Module Py.

(** [str.isspace] on one character, for code points below 256. *)
Definition isspace (c : ascii) : bool :=
  match c with
  | "009" | "010" | "011" | "012" | "013"
  | "028" | "029" | "030" | "031"
  | " " | "133" | "160" => true
  | _ => false
  end%char.

(** The white space [int] skips around a literal: it does not include the
    separators 28 to 31. *)
Definition int_isspace (c : ascii) : bool :=
  match c with
  | "009" | "010" | "011" | "012" | "013" | " " | "133" | "160" => true
  | _ => false
  end%char.

Definition nonempty (s : string) : bool :=
  match s with
  | EmptyString => false
  | String _ _ => true
  end.

Fixpoint lstrip_by (sp : ascii -> bool) (s : string) : string :=
  match s with
  | EmptyString => EmptyString
  | String c r => if sp c then lstrip_by sp r else s
  end.

Fixpoint rstrip_by (sp : ascii -> bool) (s : string) : string :=
  match s with
  | EmptyString => EmptyString
  | String c r =>
      let r' := rstrip_by sp r in
      if sp c && negb (nonempty r') then EmptyString else String c r'
  end.

(** [s.strip()] *)
Definition strip (s : string) : string := lstrip_by isspace (rstrip_by isspace s).

(** [s.startswith(p)] *)
Definition startswith (s p : string) : bool := String.prefix p s.

(** [sub in s] on strings *)
Fixpoint contains (sub s : string) : bool :=
  String.prefix sub s ||
  match s with
  | EmptyString => false
  | String _ r => contains sub r
  end.

(** [s[1:]] *)
Definition from1 (s : string) : string :=
  match s with
  | EmptyString => EmptyString
  | String _ r => r
  end.

(** [s.split()]: the maximal runs of characters that are not white space. *)
Fixpoint split (s : string) : list string :=
  match s with
  | EmptyString => []
  | String c r =>
      if isspace c then split r
      else
        match r with
        | EmptyString => [String c EmptyString]
        | String c' _ =>
            if isspace c' then String c EmptyString :: split r
            else
              match split r with
              | tok :: toks => String c tok :: toks
              | [] => [String c EmptyString]
              end
        end
  end.

(** [l[i]] on a list, for an index that is not negative. *)
Definition index {A : Type} (l : list A) (i : nat) : result A :=
  match l !! i with
  | Some a => Ok a
  | None => Raise IndexError
  end.

(** The value of a decimal digit: the code points 48 to 57. *)
Definition digit (c : ascii) : option Z :=
  let n := N_of_ascii c in
  if ((48 <=? n) && (n <=? 57))%N then Some (Z.of_N (n - 48)) else None.

(** The default of [sys.get_int_max_str_digits()]. *)
Definition int_max_str_digits : nat := 4300.

(** The digits of a decimal literal, where single underscores may separate
    digits: [acc] is the value so far, [n] the number of digits read and
    [after_digit] tells whether the previous character was a digit. *)
Fixpoint digits (acc : Z) (n : nat) (after_digit : bool) (s : string)
  : result Z :=
  match s with
  | EmptyString =>
      if after_digit && (n <=? int_max_str_digits)%nat then Ok acc
      else Raise ValueError
  | String c r =>
      match digit c with
      | Some d => digits (10 * acc + d) (S n) true r
      | None =>
          if Ascii.eqb c "_" && after_digit then digits acc n false r
          else Raise ValueError
      end
  end.

(** [int(s)] for a string [s] *)
Definition int (s : string) : result Z :=
  match lstrip_by int_isspace (rstrip_by int_isspace s) with
  | String "-" r => v ← digits 0 0 false r; Ok (- v)
  | String "+" r => digits 0 0 false r
  | r => digits 0 0 false r
  end.

(** [str.lower] on one character, for code points below 256. *)
Definition lower_char (c : ascii) : ascii :=
  let n := N_of_ascii c in
  if ((65 <=? n) && (n <=? 90) ||
      (192 <=? n) && (n <=? 222) && negb (n =? 215))%N
  then ascii_of_N (n + 32) else c.

Fixpoint lower (s : string) : string :=
  match s with
  | EmptyString => EmptyString
  | String c r => String (lower_char c) (lower r)
  end.

(** The least magnitude of an [int] that does not convert to a [float]. *)
Definition float_overflow : Z := 2 ^ 1024 - 2 ^ 970.

(** The precision and the exponent bound of a double. *)
Definition prec : Z := 53.
Definition emax : Z := 1024.

(** [float(n)] for an [int] n below [float_overflow] in magnitude: the
    nearest double. *)
Definition float_of_int (n : Z) : spec_float :=
  binary_normalize prec emax n 0 false.

(** [1e6 / n] for an [int] n: the conversion of [n] comes first, then the
    division of doubles. *)
Definition truediv_1e6 (n : Z) : result spec_float :=
  if float_overflow <=? Z.abs n then Raise OverflowError
  else if n =? 0 then Raise ZeroDivisionError
  else Ok (SFdiv prec emax (float_of_int 1000000) (float_of_int n)).

(** The least magnitude of an [int] that [str] and [format] refuse: one
    digit more than [int_max_str_digits]. *)
Definition str_limit : Z := 10 ^ Z.of_nat int_max_str_digits.

(** An [int] in an f-string, with or without the format [6d]: the text is
    not kept, the exception is. *)
Definition format_int (n : Z) : result unit :=
  if str_limit <=? Z.abs n then Raise ValueError else Ok tt.

(** The digits of a binary literal, with the underscores of [digits]. *)
Fixpoint bits (acc : Z) (after_digit : bool) (s : string) : result Z :=
  match s with
  | EmptyString => if after_digit then Ok acc else Raise ValueError
  | String c r =>
      if Ascii.eqb c "0" then bits (2 * acc) true r
      else if Ascii.eqb c "1" then bits (2 * acc + 1) true r
      else if Ascii.eqb c "_" && after_digit then bits acc false r
      else Raise ValueError
  end.

(** A literal of base 2 behind its sign: the prefix [0b] or [0B] may come
    first, and one underscore may follow the prefix. *)
Definition unsigned_2 (s : string) : result Z :=
  match s with
  | String "0" (String p r) =>
      if Ascii.eqb p "b" || Ascii.eqb p "B" then
        match r with
        | String "_" r' => bits 0 false r'
        | _ => bits 0 false r
        end
      else bits 0 false s
  | _ => bits 0 false s
  end.

(** [int(s, 2)] for a string [s]; the limit on the number of digits does
    not apply to this base. *)
Definition int_2 (s : string) : result Z :=
  match lstrip_by int_isspace (rstrip_by int_isspace s) with
  | String "-" r => v ← unsigned_2 r; Ok (- v)
  | String "+" r => unsigned_2 r
  | r => unsigned_2 r
  end.

End Py.

Arguments Py.str_limit : simpl never.
Arguments Py.format_int : simpl never.

(** ** The data the reader builds *)

(** The record stored under a symbol: the keys ['name'], ['width'],
    ['type'] and ['values'] of the inner dictionary. *)
Record Signal : Type := mkSignal {
  name : string;
  width : Z;
  type : string;
  values : list (Z * string)
}.

Definition append_value (info : Signal) (tv : Z * string) : Signal :=
  {| name := name info; width := width info; type := type info;
     values := values info ++ [tv] |}.

(** An insertion-ordered dictionary with string keys. *)
Section Dict.
Context {V : Type}.

Fixpoint dict_get (k : string) (d : list (string * V)) : option V :=
  match d with
  | [] => None
  | (k', v) :: r => if String.eqb k k' then Some v else dict_get k r
  end.

(** [d[k] = v]: an existing key keeps its position. *)
Fixpoint dict_set (k : string) (v : V) (d : list (string * V))
  : list (string * V) :=
  match d with
  | [] => [(k, v)]
  | (k', v') :: r =>
      if String.eqb k k' then (k', v) :: r else (k', v') :: dict_set k v r
  end.
End Dict.

(** The local variables of [parse_vcd] that live across loop iterations. *)
Record State : Type := mkState {
  signals : list (string * Signal);
  timeline : gmap Z (list (string * string));
  current_time : Z;
  in_definitions : bool
}.

Definition initial : State :=
  {| signals := []; timeline := ∅; current_time := 0; in_definitions := true |}.

(** ** [parse_vcd] *)

(** The [$var] block of the loop body. *)
Definition declare (st : State) (line : string) : result State :=
  let parts := Py.split line in
  signal_type ← Py.index parts 1;
  width_field ← Py.index parts 2;
  width ← Py.int width_field;
  symbol ← Py.index parts 3;
  name ← Py.index parts 4;
  Ok {| signals :=
          dict_set symbol
            {| name := name; width := width; type := signal_type; values := [] |}
            (signals st);
        timeline := timeline st;
        current_time := current_time st;
        in_definitions := in_definitions st |}.

(** The two cases that assign [symbol] and [value]: the result is [None]
    when [symbol] stays [None]; [value] is read only when [symbol] is set. *)
Definition decode (line : string) : result (option (string * string)) :=
  match line with
  | String c rest =>
      if (2 <=? String.length line)%nat &&
         Py.contains (String c EmptyString) "01xX"
      then Ok (Some (rest, String c EmptyString))
      else if Py.startswith line "b" then
        let parts := Py.split line in
        token ← Py.index parts 0;
        let value := Py.from1 token in
        Ok (match parts !! 1%nat with
            | Some symbol => Some (symbol, value)
            | None => None
            end)
      else Ok None
  | EmptyString => Ok None
  end.

(** The last [if] of the loop body: both appends. *)
Definition record (st : State) (symbol value : string) : State :=
  match dict_get symbol (signals st) with
  | Some info =>
      {| signals :=
           dict_set symbol (append_value info (current_time st, value))
             (signals st);
         timeline :=
           <[current_time st :=
               (timeline st !!! current_time st) ++ [(symbol, value)]]>
             (timeline st);
         current_time := current_time st;
         in_definitions := in_definitions st |}
  | None => st
  end.

(** One iteration of the loop, on the line as read from the file. *)
Definition step (st : State) (raw : string) : result State :=
  let line := Py.strip raw in
  st ← (if Py.startswith line "$var" then declare st line else Ok st);
  let st :=
    if Py.startswith line "$enddefinitions" then
      {| signals := signals st; timeline := timeline st;
         current_time := current_time st; in_definitions := false |}
    else st in
  st ← (if Py.startswith line "#" && negb (in_definitions st) then
           t ← Py.int (Py.from1 line);
           Ok {| signals := signals st; timeline := timeline st;
                 current_time := t; in_definitions := in_definitions st |}
         else Ok st);
  if negb (in_definitions st) &&
     negb (Py.startswith line "$" || Py.startswith line "#") &&
     Py.nonempty line
  then
    change ← decode line;
    match change with
    | Some (symbol, value) =>
        if Py.nonempty symbol then Ok (record st symbol value) else Ok st
    | None => Ok st
    end
  else Ok st.

(** The loop, from any state. *)
Fixpoint run (st : State) (lines : list string) : result State :=
  match lines with
  | [] => Ok st
  | raw :: rest => st' ← step st raw; run st' rest
  end.

Definition parse_vcd (lines : list string)
  : result (list (string * Signal) * gmap Z (list (string * string))) :=
  st ← run initial lines;
  Ok (signals st, timeline st).

(** ** [analyze_signal] *)

(** What the function prints once the signal is found. *)
Record report : Type := mkReport {
  shown_type : string;
  shown_width : Z;
  transitions : nat;
  first_changes : list (Z * string);
  clock : option (Z * spec_float)
}.

(** The search loop at the head of [analyze_signal] and [plot_waveforms]. *)
Definition lookup_by_name (signal_data : list (string * Signal))
    (signal_name : string) : option Signal :=
  snd <$> List.find (fun e => String.eqb (name (snd e)) signal_name) signal_data.

Definition rising_edges (vals : list (Z * string)) : list Z :=
  fst <$> List.filter (fun tv => String.eqb (snd tv) "1") vals.

(** The clock branch: the period and the frequency in MHz, when printed. *)
Definition clock_estimate (signal_name : string) (vals : list (Z * string))
  : result (option (Z * spec_float)) :=
  if Py.contains "clk" (Py.lower signal_name) && (3 <=? length vals)%nat then
    match rising_edges vals with
    | t0 :: t1 :: _ =>
        let period := t1 - t0 in
        frequency_mhz ← Py.truediv_1e6 period;
        Ok (Some (period, frequency_mhz))
    | _ => Ok None
    end
  else Ok None.

(** The loop that prints the first changes: each time is formatted. *)
Fixpoint print_changes (vals : list (Z * string)) : result unit :=
  match vals with
  | [] => Ok tt
  | (time, value) :: rest => _ ← Py.format_int time; print_changes rest
  end.

(** The result is [None] when the function reports that the signal is not
    found.  The width and the times of the first ten changes are formatted
    before the clock branch is reached. *)
Definition analyze_signal (signal_data : list (string * Signal))
    (signal_name : string) : result (option report) :=
  match lookup_by_name signal_data signal_name with
  | None => Ok None
  | Some signal_info =>
      _ ← Py.format_int (width signal_info);
      _ ← print_changes (take 10 (values signal_info));
      clk ← clock_estimate signal_name (values signal_info);
      Ok (Some {| shown_type := type signal_info;
                  shown_width := width signal_info;
                  transitions := length (values signal_info);
                  first_changes := take 10 (values signal_info);
                  clock := clk |})
  end.

(** ** [plot_waveforms]

    The calls into the plotting library are kept as the data they are
    given; creating, saving and showing the figure are outside the model. *)

(** [max_time and time > max_time], the test that leaves the inner loop. *)
Definition past (max_time : option Z) (time : Z) : bool :=
  match max_time with
  | Some m => negb (m =? 0) && (m <? time)
  | None => false
  end.

(** The number appended to [values] for one entry of the history. *)
Definition level (signal_info : Signal) (value : string) : Z :=
  if 1 <? width signal_info then
    match Py.int_2 value with
    | Ok n => n
    | Raise _ => 0
    end
  else if String.eqb value "1" then 1 else 0.

(** The inner loop: [times] and [values], entry by entry. *)
Fixpoint samples (signal_info : Signal) (max_time : option Z)
    (history : list (Z * string)) : list (Z * Z) :=
  match history with
  | [] => []
  | (time, value) :: rest =>
      if past max_time time then []
      else (time, level signal_info value) :: samples signal_info max_time rest
  end.

(** The calls [hlines(values[i], times[i], times[i+1])] and
    [vlines(times[i+1], values[i], values[i+1])], for [i] from 0. *)
Fixpoint edges (s : list (Z * Z)) : list ((Z * Z * Z) * (Z * Z * Z)) :=
  match s with
  | (t0, v0) :: rest =>
      match rest with
      | (t1, v1) :: _ => ((v0, t0, t1), (t1, v0, v1)) :: edges rest
      | [] => []
      end
  | [] => []
  end.

(** What is drawn on one axis. *)
Inductive drawing : Type :=
| Levels (lines : list ((Z * Z * Z) * (Z * Z * Z)))
| Step (times values : list Z).

(** The body of the outer loop for one name; [None] when the name is not
    found and the axis is left as it is.  The title, set after the drawing,
    formats the width. *)
Definition plot_signal (signals : list (string * Signal))
    (signal_name : string) (max_time : option Z) : result (option drawing) :=
  match lookup_by_name signals signal_name with
  | None => Ok None
  | Some signal_info =>
      let s := samples signal_info max_time (values signal_info) in
      let drawn := if width signal_info =? 1 then Levels (edges s)
                   else Step (fst <$> s) (snd <$> s) in
      _ ← Py.format_int (width signal_info);
      Ok (Some drawn)
  end.

Fixpoint plot_waveforms (signals : list (string * Signal))
    (signal_names : list string) (max_time : option Z)
  : result (list (option drawing)) :=
  match signal_names with
  | [] => Ok []
  | signal_name :: rest =>
      drawn ← plot_signal signals signal_name max_time;
      others ← plot_waveforms signals rest max_time;
      Ok (drawn :: others)
  end.

(** ** [main]

    The program on the lines of its input file: the names it lists, the
    four analyses and the plots. *)
Definition main (lines : list string)
  : result (list string * list (option report) * list (option drawing)) :=
  parsed ← parse_vcd lines;
  let signals := parsed.1 in
  clk ← analyze_signal signals "clk";
  m_data ← analyze_signal signals "m_data";
  m_valid ← analyze_signal signals "m_valid";
  m_ready ← analyze_signal signals "m_ready";
  let signals_to_plot := ["clk"; "m_data"; "m_valid"; "m_ready"] in
  plots ← plot_waveforms signals signals_to_plot (Some 100000);
  Ok ((fun e => name e.2) <$> signals,
      [clk; m_data; m_valid; m_ready],
      plots).

(** ** Vocabulary of the further properties *)

(** A string without any white space character. *)
Fixpoint no_space (s : string) : bool :=
  match s with
  | EmptyString => true
  | String c r => negb (Py.isspace c) && no_space r
  end.

(** An integer that [str] and [format] accept. *)
Definition printable (n : Z) : Prop := Z.abs n < Py.str_limit.

(** A signal whose width and whose times can all be formatted. *)
Definition printable_signal (info : Signal) : Prop :=
  printable (width info) /\ Forall (fun tv => printable tv.1) (values info).

(** A record whose symbol, name, kind and width are the fourth, fifth,
    second and third field of one of the lines, a line that starts with
    [$var]. *)
Definition declared_by (lines : list string) (symbol : string)
    (info : Signal) : Prop :=
  exists raw marker field rest,
    raw ∈ lines /\
    Py.startswith (Py.strip raw) "$var" = true /\
    Py.split (Py.strip raw)
      = marker :: type info :: field :: symbol :: name info :: rest /\
    Py.int field = Ok (width info).

(** A token: a string that is not empty and holds no white space. *)
Definition token (s : string) : bool := Py.nonempty s && no_space s.

(** The characters of a string. *)
Fixpoint chars (s : string) : list ascii :=
  match s with
  | EmptyString => []
  | String c r => c :: chars r
  end.

(** The string of a list of bits, most significant first, and its value. *)
Fixpoint bit_string (bs : list bool) : string :=
  match bs with
  | [] => EmptyString
  | b :: r => String (if b then "1" else "0")%char (bit_string r)
  end.

Fixpoint bit_value (acc : Z) (bs : list bool) : Z :=
  match bs with
  | [] => acc
  | b :: r => bit_value (2 * acc + (if b then 1 else 0)) r
  end.

(** The integers behind the [#] of the lines that have one, in file order. *)
Definition stamps (lines : list string) : list Z :=
  omap (fun raw =>
          if Py.startswith (Py.strip raw) "#" then
            match Py.int (Py.from1 (Py.strip raw)) with
            | Ok t => Some t
            | Raise _ => None
            end
          else None) lines.

(** ** Files given by their text *)

Definition newline : string := String "010"%char EmptyString.

(** The lines that iterating over a file with the given text lines yields:
    each keeps its line terminator. *)
Definition readlines (text : list string) : list string :=
  (fun l => l +:+ newline) <$> text.

(** ** The inputs on which the loop raises nothing *)

Definition is_ok {A : Type} (r : result A) : bool :=
  match r with
  | Ok _ => true
  | Raise _ => false
  end.

(** A line with at least five fields, the third of which [int] reads. *)
Definition declaration_fields (line : string) : bool :=
  match Py.split line with
  | _ :: _ :: field :: _ :: _ :: _ => is_ok (Py.int field)
  | _ => false
  end.

(** A stripped line that raises nothing when read in phase [in_defs]. *)
Definition line_accepted (in_defs : bool) (line : string) : bool :=
  (if Py.startswith line "$var" then declaration_fields line else true) &&
  (if Py.startswith line "#" && negb in_defs
   then is_ok (Py.int (Py.from1 line)) else true).

Fixpoint accepted (in_defs : bool) (lines : list string) : bool :=
  match lines with
  | [] => true
  | raw :: rest =>
      let line := Py.strip raw in
      line_accepted in_defs line &&
      accepted (in_defs && negb (Py.startswith line "$enddefinitions")) rest
  end.

(** ** The two views, one symbol and one time at a time *)

(** The values a history holds at time [t], in order. *)
Definition history_at (t : Z) (history : list (Z * string)) : list string :=
  snd <$> filter (fun tv => tv.1 = t) history.

(** The values a bucket of the timeline holds for [symbol], in order. *)
Definition bucket_of (symbol : string) (bucket : list (string * string))
  : list string :=
  snd <$> filter (fun sv => sv.1 = symbol) bucket.

(** The invariant: every history is in time order and ends no later than
    the current time. *)
Definition in_time_order (s : State) : Prop :=
  forall symbol info,
    dict_get symbol (signals s) = Some info ->
    StronglySorted Z.le (values info).*1 /\
    Forall (fun t => t <= current_time s) (values info).*1.

(** ** Elementary facts on the built-ins *)

Lemma startswith_cons (s p : string) (a : ascii) :
  Py.startswith s (String a p) = true <->
  exists r, s = String a r /\ Py.startswith r p = true.
Proof.
  unfold Py.startswith. split.
  - destruct s as [|b r]; simpl; [discriminate|].
    destruct (ascii_dec a b) as [->|]; [eauto | discriminate].
  - intros (r & -> & Hr). simpl.
    destruct (ascii_dec a a); [assumption | congruence].
Qed.

Lemma startswith_var (line : string) :
  Py.startswith line "$var" = true ->
  Py.startswith line "$enddefinitions" = false /\
  Py.startswith line "#" = false /\
  Py.startswith line "$" = true.
Proof.
  intros H.
  apply startswith_cons in H as (r1 & -> & H).
  apply startswith_cons in H as (r2 & -> & _).
  repeat split; reflexivity.
Qed.

Lemma startswith_enddefinitions (line : string) :
  Py.startswith line "$enddefinitions" = true ->
  Py.startswith line "$var" = false /\
  Py.startswith line "#" = false /\
  Py.startswith line "$" = true.
Proof.
  intros H.
  apply startswith_cons in H as (r1 & -> & H).
  apply startswith_cons in H as (r2 & -> & _).
  repeat split; reflexivity.
Qed.

Lemma startswith_hash (line : string) :
  Py.startswith line "#" = true ->
  Py.startswith line "$var" = false /\
  Py.startswith line "$enddefinitions" = false /\
  Py.startswith line "$" = false.
Proof.
  intros H.
  apply startswith_cons in H as (r1 & -> & _).
  repeat split; reflexivity.
Qed.

Lemma not_startswith_dollar (line : string) :
  Py.startswith line "$" = false ->
  Py.startswith line "$var" = false /\
  Py.startswith line "$enddefinitions" = false.
Proof.
  intros H. split.
  - destruct (Py.startswith line "$var") eqn:E; [|reflexivity].
    apply startswith_var in E as (_ & _ & E). congruence.
  - destruct (Py.startswith line "$enddefinitions") eqn:E; [|reflexivity].
    apply startswith_enddefinitions in E as (_ & _ & E). congruence.
Qed.

Lemma split_nonempty (s : string) :
  Forall (fun tok => Py.nonempty tok = true) (Py.split s).
Proof.
  induction s as [|c r IH]; simpl; [constructor|].
  destruct (Py.isspace c); [assumption|].
  destruct r as [|c' r']; [repeat constructor|].
  destruct (Py.isspace c'); [constructor; [reflexivity | assumption]|].
  destruct (Py.split (String c' r')) as [|tok toks].
  - repeat constructor.
  - inversion IH; subst. constructor; [reflexivity | assumption].
Qed.

Lemma split_head (c : ascii) (r : string) :
  Py.isspace c = false ->
  exists tok toks, Py.split (String c r) = String c tok :: toks.
Proof.
  intros Hc. simpl. rewrite Hc.
  destruct r as [|c' r']; [eauto|].
  destruct (Py.isspace c'); [eauto|].
  destruct (Py.split (String c' r')); eauto.
Qed.

(** ** The loop body, one class of line at a time *)

Lemma declare_frame (st st' : State) (line : string) :
  declare st line = Ok st' ->
  timeline st' = timeline st /\
  current_time st' = current_time st /\
  in_definitions st' = in_definitions st.
Proof.
  unfold declare. intros H.
  repeat (match type of H with
          | (_ ← ?m; _) = _ => destruct m; simpl in H; [|discriminate]
          end).
  injection H as <-. auto.
Qed.

Lemma step_var (st : State) (raw : string) :
  Py.startswith (Py.strip raw) "$var" = true ->
  step st raw = declare st (Py.strip raw).
Proof.
  intros H. unfold step. rewrite H.
  destruct (startswith_var _ H) as (-> & -> & ->).
  destruct (declare st (Py.strip raw)) as [st'|e]; simpl; [|reflexivity].
  rewrite andb_false_r. reflexivity.
Qed.

Lemma step_enddefinitions (st : State) (raw : string) :
  Py.startswith (Py.strip raw) "$enddefinitions" = true ->
  step st raw =
    Ok {| signals := signals st; timeline := timeline st;
          current_time := current_time st; in_definitions := false |}.
Proof.
  intros H. unfold step. rewrite H.
  destruct (startswith_enddefinitions _ H) as (-> & -> & ->).
  reflexivity.
Qed.

Lemma step_timestamp (st : State) (raw : string) :
  Py.startswith (Py.strip raw) "#" = true ->
  step st raw =
    if in_definitions st then Ok st
    else
      t ← Py.int (Py.from1 (Py.strip raw));
      Ok {| signals := signals st; timeline := timeline st;
            current_time := t; in_definitions := false |}.
Proof.
  intros H. unfold step. rewrite H.
  destruct (startswith_hash _ H) as (-> & -> & ->). simpl.
  destruct (in_definitions st) eqn:E; simpl.
  - rewrite E. reflexivity.
  - destruct (Py.int _); simpl; reflexivity.
Qed.

Lemma step_inert_dollar (st : State) (raw : string) :
  Py.startswith (Py.strip raw) "$" = true ->
  Py.startswith (Py.strip raw) "$var" = false ->
  Py.startswith (Py.strip raw) "$enddefinitions" = false ->
  step st raw = Ok st.
Proof.
  intros H Hv He. unfold step. rewrite H, Hv, He.
  destruct (Py.strip raw) as [|c r]; [discriminate|].
  apply startswith_cons in H as (r' & Hr & _). injection Hr as -> ->.
  simpl. rewrite andb_false_r. reflexivity.
Qed.

Lemma step_change (st : State) (raw : string) :
  Py.startswith (Py.strip raw) "$" = false ->
  Py.startswith (Py.strip raw) "#" = false ->
  step st raw =
    if negb (in_definitions st) && Py.nonempty (Py.strip raw) then
      change ← decode (Py.strip raw);
      match change with
      | Some (symbol, value) =>
          if Py.nonempty symbol then Ok (record st symbol value) else Ok st
      | None => Ok st
      end
    else Ok st.
Proof.
  intros Hd Hh. unfold step.
  destruct (not_startswith_dollar _ Hd) as (-> & ->).
  rewrite Hd, Hh. simpl. rewrite andb_true_r. reflexivity.
Qed.

Lemma contains_01xX (c : ascii) :
  Py.contains (String c EmptyString) "01xX" = true <->
  c = "0"%char \/ c = "1"%char \/ c = "x"%char \/ c = "X"%char.
Proof.
  simpl.
  destruct (ascii_dec c "0"); [tauto|].
  destruct (ascii_dec c "1"); [tauto|].
  destruct (ascii_dec c "x"); [tauto|].
  destruct (ascii_dec c "X"); [tauto|].
  simpl. split; [discriminate | tauto].
Qed.

Lemma decode_vector (line : string) :
  Py.startswith line "b" = true ->
  decode line =
    Ok (match Py.split line with
        | token :: symbol :: _ => Some (symbol, Py.from1 token)
        | _ => None
        end).
Proof.
  intros H. pose proof H as H'.
  apply startswith_cons in H' as (r & -> & _).
  unfold decode. rewrite H.
  replace (Py.contains "b" "01xX") with false by reflexivity.
  rewrite andb_false_r.
  destruct (split_head "b" r eq_refl) as (tok & toks & ->).
  simpl. destruct toks; reflexivity.
Qed.

Lemma decode_total (line : string) : exists change, decode line = Ok change.
Proof.
  destruct (Py.startswith line "b") eqn:Hb.
  - rewrite decode_vector by assumption. eauto.
  - unfold decode. destruct line as [|c rest]; [eauto|].
    rewrite Hb. destruct (_ && _); eauto.
Qed.

Lemma decode_symbol_nonempty (line symbol value : string) :
  decode line = Ok (Some (symbol, value)) -> Py.nonempty symbol = true.
Proof.
  destruct (Py.startswith line "b") eqn:Hb.
  - rewrite decode_vector by assumption.
    pose proof (split_nonempty line) as Hne.
    destruct (Py.split line) as [|tok [|sym toks]]; try discriminate.
    intros [= <- _]. inversion Hne as [|? ? _ Hne']. inversion Hne'. assumption.
  - unfold decode. destruct line as [|c rest]; [discriminate|].
    rewrite Hb. destruct rest as [|c' rest']; [simpl; discriminate|].
    destruct (_ && _); [|discriminate].
    intros [= <- _]. reflexivity.
Qed.

Lemma record_frame (st : State) (symbol value : string) :
  current_time (record st symbol value) = current_time st /\
  in_definitions (record st symbol value) = in_definitions st.
Proof. unfold record. destruct (dict_get _ _); auto. Qed.

(** The phase after a line, and the time while the phase is Definitions. *)
Lemma step_phase (st st' : State) (raw : string) :
  step st raw = Ok st' ->
  in_definitions st' =
    in_definitions st && negb (Py.startswith (Py.strip raw) "$enddefinitions") /\
  (in_definitions st' = true -> current_time st' = current_time st).
Proof.
  intros H.
  destruct (Py.startswith (Py.strip raw) "$") eqn:Hd.
  - destruct (Py.startswith (Py.strip raw) "$var") eqn:Hv.
    { rewrite (step_var _ _ Hv) in H.
      destruct (startswith_var _ Hv) as (-> & _).
      apply declare_frame in H as (_ & -> & ->).
      rewrite andb_true_r. auto. }
    destruct (Py.startswith (Py.strip raw) "$enddefinitions") eqn:He.
    { rewrite (step_enddefinitions _ _ He) in H. injection H as <-.
      simpl. rewrite andb_false_r. split; [reflexivity | discriminate]. }
    rewrite (step_inert_dollar _ _ Hd Hv He) in H. injection H as <-.
    rewrite andb_true_r. auto.
  - destruct (not_startswith_dollar _ Hd) as (_ & ->). rewrite andb_true_r.
    destruct (Py.startswith (Py.strip raw) "#") eqn:Hh.
    + rewrite (step_timestamp _ _ Hh) in H.
      destruct (in_definitions st) eqn:E.
      * injection H as <-. auto.
      * destruct (Py.int _); [|discriminate]. injection H as <-.
        simpl. split; [reflexivity | discriminate].
    + rewrite (step_change _ _ Hd Hh) in H.
      destruct (_ && _); [|injection H as <-; auto].
      destruct (decode _) as [[[symbol value]|]|]; simpl in H;
        [| injection H as <-; auto | discriminate].
      destruct (Py.nonempty symbol); injection H as <-; auto.
      destruct (record_frame st symbol value) as (-> & ->). auto.
Qed.

Lemma declare_ok_iff (st : State) (line : string) :
  (exists st', declare st line = Ok st') <-> declaration_fields line = true.
Proof.
  unfold declare, declaration_fields, Py.index.
  destruct (Py.split line) as [|a [|b [|c [|d [|e l]]]]]; simpl;
    try (split; [intros [? ?]; discriminate | discriminate]).
  - destruct (Py.int c); simpl; split; try discriminate; intros [? ?]; discriminate.
  - destruct (Py.int c); simpl; split; try discriminate; intros [? ?]; discriminate.
  - destruct (Py.int c); simpl; split; eauto; try discriminate.
    intros [? ?]; discriminate.
Qed.

Lemma step_ok_iff (st : State) (raw : string) :
  (exists st', step st raw = Ok st') <->
  line_accepted (in_definitions st) (Py.strip raw) = true.
Proof.
  unfold line_accepted.
  destruct (Py.startswith (Py.strip raw) "$") eqn:Hd.
  - destruct (Py.startswith (Py.strip raw) "$var") eqn:Hv.
    { rewrite (step_var _ _ Hv).
      destruct (startswith_var _ Hv) as (_ & -> & _). simpl.
      rewrite andb_true_r. apply declare_ok_iff. }
    destruct (Py.startswith (Py.strip raw) "#") eqn:Hh.
    { apply startswith_hash in Hh as (_ & _ & Hh). congruence. }
    simpl. destruct (Py.startswith (Py.strip raw) "$enddefinitions") eqn:He.
    + rewrite (step_enddefinitions _ _ He). split; eauto.
    + rewrite (step_inert_dollar _ _ Hd Hv He). split; eauto.
  - destruct (not_startswith_dollar _ Hd) as (-> & _). simpl.
    destruct (Py.startswith (Py.strip raw) "#") eqn:Hh.
    + rewrite (step_timestamp _ _ Hh).
      destruct (in_definitions st); simpl; [split; eauto|].
      destruct (Py.int _); simpl; split; eauto; try discriminate.
      intros [? ?]; discriminate.
    + rewrite (step_change _ _ Hd Hh). simpl. split; [reflexivity | intros _].
      destruct (_ && _); [|eauto].
      destruct (decode_total (Py.strip raw)) as (change & ->). simpl.
      destruct change as [[symbol value]|]; [|eauto].
      destruct (Py.nonempty symbol); eauto.
Qed.

Lemma run_ok_iff (lines : list string) (st : State) :
  (exists st', run st lines = Ok st') <->
  accepted (in_definitions st) lines = true.
Proof.
  revert st. induction lines as [|raw rest IH]; intros st; simpl.
  - split; eauto.
  - rewrite andb_true_iff, <- step_ok_iff. split.
    + intros (st' & H). destruct (step st raw) as [st1|e] eqn:E; [|discriminate].
      simpl in H. split; [eauto|].
      apply step_phase in E as (<- & _). apply IH. eauto.
    + intros ((st1 & E) & H). rewrite E. simpl.
      apply step_phase in E as (E & _). rewrite <- E in H. apply IH, H.
Qed.

Lemma accepted_declarations (lines : list string) (in_defs : bool) (raw : string) :
  accepted in_defs lines = true ->
  raw ∈ lines ->
  Py.startswith (Py.strip raw) "$var" = true ->
  declaration_fields (Py.strip raw) = true.
Proof.
  revert in_defs. induction lines as [|l rest IH]; intros in_defs Hacc Hin Hv.
  - inversion Hin.
  - simpl in Hacc. apply andb_true_iff in Hacc as (Hl & Hrest).
    apply elem_of_cons in Hin as [->|Hin]; [|eauto].
    unfold line_accepted in Hl. rewrite Hv in Hl.
    apply andb_true_iff in Hl as (Hl & _). exact Hl.
Qed.

Lemma parse_vcd_ok_iff (lines : list string) :
  (exists r, parse_vcd lines = Ok r) <-> (exists st, run initial lines = Ok st).
Proof.
  unfold parse_vcd. destruct (run initial lines); simpl; split; eauto.
  - intros [? ?]; discriminate.
  - intros [? ?]; discriminate.
Qed.

(** ** C1: malformed lines *)

(** C1, as amended.  The parse of an opened stream runs to completion
    exactly when every line that starts with [$var] has at least five
    white-space separated fields of which the third reads as an integer,
    and every line that starts with [#] after the end-of-definitions marker
    reads as an integer behind the [#].  A declaration line with fewer
    fields or a width that is no integer is not skipped: it raises, and the
    exception ends the parse. *)
Theorem malformed_lines_abort (lines : list string) :
  ((exists r, parse_vcd lines = Ok r) <-> accepted true lines = true) /\
  (forall raw,
     raw ∈ lines ->
     Py.startswith (Py.strip raw) "$var" = true ->
     declaration_fields (Py.strip raw) = false ->
     exists e, parse_vcd lines = Raise e).
Proof.
  assert (Hiff : (exists r, parse_vcd lines = Ok r) <-> accepted true lines = true).
  { rewrite parse_vcd_ok_iff. apply (run_ok_iff lines initial). }
  split; [exact Hiff|].
  intros raw Hin Hv Hf.
  destruct (parse_vcd lines) as [r|e] eqn:E; [|eauto].
  assert (Hacc : accepted true lines = true) by (apply Hiff; eauto).
  rewrite (accepted_declarations _ _ _ Hacc Hin Hv) in Hf. discriminate.
Qed.

Lemma malformed_lines_abort_witness :
  (exists r, parse_vcd (readlines ["$var wire 1 ! clk $end";
                                   "$enddefinitions $end"; "#0"; "1!"]) = Ok r) /\
  (exists e, parse_vcd (readlines ["$var wire abc ! clk $end";
                                   "$enddefinitions $end"; "#0"; "1!"]) = Raise e).
Proof.
  split.
  - apply (proj1 (malformed_lines_abort _)). reflexivity.
  - apply (proj2 (malformed_lines_abort _)
             ("$var wire abc ! clk $end" +:+ newline)).
    + apply elem_of_cons. left. reflexivity.
    + reflexivity.
    + reflexivity.
Defined.

(** C1, as stated, fails: the declaration of scenario D, with the width
    [abc], raises [ValueError] instead of being skipped, and the valid
    lines behind it are never read; a declaration with four fields raises
    [IndexError]. *)
Lemma scenario_D_raises :
  parse_vcd (readlines ["$var wire abc ! clk $end"; "$enddefinitions $end";
                        "#0"; "1!"]) = Raise ValueError /\
  parse_vcd (readlines ["$var wire 1 !"; "$enddefinitions $end"])
    = Raise IndexError /\
  ~ (exists r, parse_vcd (readlines ["$var wire abc ! clk $end";
                                     "$enddefinitions $end"; "#0"; "1!"]) = Ok r).
Proof.
  repeat split; try reflexivity.
  intros [r H]. vm_compute in H. discriminate.
Qed.

(** ** C2: scenario A *)

(** C2.  The six lines of scenario A give one signal, [clk] of width 1 and
    kind [wire], with the history [(0,'1'), (5,'0')], and the timeline
    [{0: [('!','1')], 5: [('!','0')]}]. *)
Theorem scenario_A :
  parse_vcd (readlines ["$var wire 1 ! clk $end"; "$enddefinitions $end";
                        "#0"; "1!"; "#5"; "0!"])
  = Ok ([("!", {| name := "clk"; width := 1; type := "wire";
                  values := [(0, "1"); (5, "0")] |})],
        {[ 0 := [("!", "1")]; 5 := [("!", "0")] ]}).
Proof. reflexivity. Qed.

(** ** The registry as a dictionary *)

Section DictFacts.
Context {V : Type}.
Implicit Types (d : list (string * V)) (k : string) (v : V).

Lemma dict_get_set_eq k v d : dict_get k (dict_set k v d) = Some v.
Proof.
  induction d as [|[k' v'] r IH]; simpl.
  - rewrite String.eqb_refl. reflexivity.
  - destruct (String.eqb k k') eqn:E; simpl; rewrite E; auto.
Qed.

Lemma dict_get_set_ne k k' v d :
  k <> k' -> dict_get k' (dict_set k v d) = dict_get k' d.
Proof.
  intros Hne. induction d as [|[k0 v0] r IH]; simpl.
  - apply String.eqb_neq in Hne. rewrite String.eqb_sym, Hne. reflexivity.
  - destruct (String.eqb k k0) eqn:E; simpl.
    + apply String.eqb_eq in E as <-.
      apply String.eqb_neq in Hne. rewrite String.eqb_sym, Hne. reflexivity.
    + rewrite IH. reflexivity.
Qed.

Lemma dict_set_length k v d :
  is_Some (dict_get k d) -> length (dict_set k v d) = length d.
Proof.
  induction d as [|[k0 v0] r IH]; simpl.
  - intros [? ?]; discriminate.
  - destruct (String.eqb k k0); simpl; auto.
Qed.
End DictFacts.

Lemma record_declared (st : State) (symbol value : string) (info : Signal) :
  dict_get symbol (signals st) = Some info ->
  dict_get symbol (signals (record st symbol value))
    = Some (append_value info (current_time st, value)) /\
  timeline (record st symbol value) !!! current_time st
    = (timeline st !!! current_time st) ++ [(symbol, value)] /\
  (forall other, other <> symbol ->
     dict_get other (signals (record st symbol value))
       = dict_get other (signals st)) /\
  (forall t, t <> current_time st ->
     timeline (record st symbol value) !! t = timeline st !! t).
Proof.
  intros H. unfold record. rewrite H. simpl. repeat split.
  - apply dict_get_set_eq.
  - apply lookup_total_insert_eq.
  - intros other Hne. apply dict_get_set_ne. congruence.
  - intros t Hne. apply lookup_insert_ne. congruence.
Qed.

Lemma record_undeclared (st : State) (symbol value : string) :
  dict_get symbol (signals st) = None -> record st symbol value = st.
Proof. intros H. unfold record. rewrite H. reflexivity. Qed.

(** ** C3: scalar value changes *)

(** C3, as amended.  In the ValueChanges phase, a line of at least two
    characters whose first character is one of [0], [1], [x], [X] is
    decoded with that character, kept as it is, as the value and the whole
    remainder of the line as the symbol, and the change is recorded when
    the symbol is declared.  (Lines that start with [z] or [Z] are not
    among the scalar forms the reader decodes.) *)
Theorem scalar_change (st : State) (raw symbol : string) (c : ascii) :
  in_definitions st = false ->
  Py.strip raw = String c symbol ->
  c = "0"%char \/ c = "1"%char \/ c = "x"%char \/ c = "X"%char ->
  symbol <> EmptyString ->
  decode (Py.strip raw) = Ok (Some (symbol, String c EmptyString)) /\
  step st raw = Ok (record st symbol (String c EmptyString)) /\
  forall info,
    dict_get symbol (signals st) = Some info ->
    dict_get symbol (signals (record st symbol (String c EmptyString)))
      = Some (append_value info (current_time st, String c EmptyString)) /\
    timeline (record st symbol (String c EmptyString)) !!! current_time st
      = (timeline st !!! current_time st) ++ [(symbol, String c EmptyString)].
Proof.
  intros Hphase Hline Hc Hsym.
  assert (Hdec : decode (Py.strip raw) = Ok (Some (symbol, String c EmptyString))).
  { rewrite Hline. unfold decode.
    apply contains_01xX in Hc. rewrite Hc.
    destruct symbol; [congruence | reflexivity]. }
  split; [exact Hdec|]. split.
  - assert (Hd : Py.startswith (Py.strip raw) "$" = false).
    { rewrite Hline. destruct Hc as [->|[->|[->| ->]]]; reflexivity. }
    assert (Hh : Py.startswith (Py.strip raw) "#" = false).
    { rewrite Hline. destruct Hc as [->|[->|[->| ->]]]; reflexivity. }
    rewrite (step_change _ _ Hd Hh), Hphase, Hdec. rewrite Hline. simpl.
    destruct symbol; [congruence | reflexivity].
  - intros info Hinfo.
    destruct (record_declared st symbol (String c EmptyString) info Hinfo)
      as (H1 & H2 & _).
    auto.
Qed.

Lemma scalar_change_witness :
  let st := {| signals := [("!", {| name := "clk"; width := 1; type := "wire";
                                    values := [] |})];
               timeline := ∅; current_time := 5; in_definitions := false |} in
  step st ("X!" +:+ newline)
  = Ok {| signals := [("!", {| name := "clk"; width := 1; type := "wire";
                               values := [(5, "X")] |})];
          timeline := {[ 5 := [("!", "X")] ]};
          current_time := 5; in_definitions := false |}.
Proof.
  intros st.
  refine (proj1 (proj2 (scalar_change st ("X!" +:+ newline) "!" "X"
                          eq_refl eq_refl _ _))).
  - auto.
  - discriminate.
Defined.

(** C3, as stated, fails for [z] and [Z]: with [!] declared, the line [z!]
    of the ValueChanges phase records nothing. *)
Lemma high_impedance_dropped :
  let st := {| signals := [("!", {| name := "clk"; width := 1; type := "wire";
                                    values := [] |})];
               timeline := ∅; current_time := 5; in_definitions := false |} in
  step st ("z!" +:+ newline) = Ok st /\
  step st ("Z!" +:+ newline) = Ok st /\
  step st ("z!" +:+ newline) <> Ok (record st "!" "z") /\
  parse_vcd (readlines ["$var wire 1 ! clk $end"; "$enddefinitions $end";
                        "#5"; "z!"])
  = Ok ([("!", {| name := "clk"; width := 1; type := "wire"; values := [] |})],
        ∅).
Proof.
  repeat split; try reflexivity.
  intros H. vm_compute in H. discriminate.
Qed.

(** ** C4: changes of symbols that are not declared *)

(** C4.  A value-change line whose symbol is not declared raises nothing
    and leaves the whole state as it is: no history and no bucket of the
    timeline grows, and [current_time] keeps its value. *)
Theorem orphan_change (st : State) (raw : string) :
  Py.startswith (Py.strip raw) "$" = false ->
  Py.startswith (Py.strip raw) "#" = false ->
  (forall symbol value,
     decode (Py.strip raw) = Ok (Some (symbol, value)) ->
     dict_get symbol (signals st) = None) ->
  step st raw = Ok st.
Proof.
  intros Hd Hh Horphan. rewrite (step_change _ _ Hd Hh).
  destruct (_ && _); [|reflexivity].
  destruct (decode_total (Py.strip raw)) as (change & Hdec).
  rewrite Hdec. simpl. destruct change as [[symbol value]|]; [|reflexivity].
  destruct (Py.nonempty symbol); [|reflexivity].
  rewrite (record_undeclared _ _ _ (Horphan _ _ Hdec)). reflexivity.
Qed.

Lemma orphan_change_witness :
  let st := {| signals := [("!", {| name := "clk"; width := 1; type := "wire";
                                    values := [(0, "1")] |})];
               timeline := {[ 0 := [("!", "1")] ]};
               current_time := 7; in_definitions := false |} in
  decode (Py.strip ("1$" +:+ newline)) = Ok (Some ("$", "1")) /\
  step st ("1$" +:+ newline) = Ok st.
Proof.
  intros st. split; [reflexivity|].
  apply (orphan_change st ("1$" +:+ newline)); try reflexivity.
  intros symbol value H. vm_compute in H. injection H as <- _. reflexivity.
Defined.

(** ** C5: the two views of a change *)

(** C5.  A decoded change of a declared symbol is appended, as
    [(current_time, value)], to the end of the history of that symbol and,
    as [(symbol, value)], to the end of the bucket of the timeline at
    [current_time]; nothing else in either view changes, so both views list
    the changes in file order. *)
Theorem change_in_both_views (st : State) (raw symbol value : string)
    (info : Signal) :
  in_definitions st = false ->
  Py.startswith (Py.strip raw) "$" = false ->
  Py.startswith (Py.strip raw) "#" = false ->
  decode (Py.strip raw) = Ok (Some (symbol, value)) ->
  dict_get symbol (signals st) = Some info ->
  exists st',
    step st raw = Ok st' /\
    dict_get symbol (signals st')
      = Some (append_value info (current_time st, value)) /\
    timeline st' !!! current_time st
      = (timeline st !!! current_time st) ++ [(symbol, value)] /\
    (forall other, other <> symbol ->
       dict_get other (signals st') = dict_get other (signals st)) /\
    (forall t, t <> current_time st -> timeline st' !! t = timeline st !! t) /\
    current_time st' = current_time st.
Proof.
  intros Hphase Hd Hh Hdec Hinfo.
  exists (record st symbol value).
  destruct (record_declared st symbol value info Hinfo) as (H1 & H2 & H3 & H4).
  destruct (record_frame st symbol value) as (Ht & _).
  repeat split; try assumption.
  assert (Hne : Py.nonempty (Py.strip raw) = true).
  { destruct (Py.strip raw); [discriminate Hdec | reflexivity]. }
  rewrite (step_change _ _ Hd Hh), Hphase, Hne, Hdec. simpl.
  rewrite (decode_symbol_nonempty _ _ _ Hdec). reflexivity.
Qed.

Lemma change_in_both_views_witness :
  let st := {| signals := [("!", {| name := "clk"; width := 1; type := "wire";
                                    values := [(0, "1")] |});
                           ("#", {| name := "m_data"; width := 8; type := "reg";
                                    values := [] |})];
               timeline := {[ 0 := [("!", "1")] ]};
               current_time := 0; in_definitions := false |} in
  exists st',
    step st ("b1010 #" +:+ newline) = Ok st' /\
    dict_get "#" (signals st')
      = Some {| name := "m_data"; width := 8; type := "reg";
                values := [(0, "1010")] |} /\
    timeline st' !!! 0 = [("!", "1"); ("#", "1010")].
Proof.
  intros st.
  destruct (change_in_both_views st ("b1010 #" +:+ newline) "#" "1010"
              {| name := "m_data"; width := 8; type := "reg"; values := [] |}
              eq_refl eq_refl eq_refl eq_refl eq_refl)
    as (st' & Hstep & Hsig & Htl & _).
  exists st'. repeat split; assumption.
Defined.

(** What a line that is no declaration does to the two views: nothing, or
    one [record] for a declared symbol. *)
Lemma step_effect (st st' : State) (raw : string) :
  Py.startswith (Py.strip raw) "$var" = false ->
  step st raw = Ok st' ->
  (signals st' = signals st /\ timeline st' = timeline st) \/
  (exists symbol value info,
     dict_get symbol (signals st) = Some info /\
     st' = record st symbol value).
Proof.
  intros Hv H.
  destruct (Py.startswith (Py.strip raw) "$") eqn:Hd.
  - destruct (Py.startswith (Py.strip raw) "$enddefinitions") eqn:He.
    + rewrite (step_enddefinitions _ _ He) in H. injection H as <-. auto.
    + rewrite (step_inert_dollar _ _ Hd Hv He) in H. injection H as <-. auto.
  - destruct (Py.startswith (Py.strip raw) "#") eqn:Hh.
    + rewrite (step_timestamp _ _ Hh) in H.
      destruct (in_definitions st); [injection H as <-; auto|].
      destruct (Py.int _); [|discriminate]. injection H as <-. auto.
    + rewrite (step_change _ _ Hd Hh) in H.
      destruct (_ && _); [|injection H as <-; auto].
      destruct (decode _) as [[[symbol value]|]|]; simpl in H;
        [| injection H as <-; auto | discriminate].
      destruct (Py.nonempty symbol); injection H as <-; [|auto].
      destruct (dict_get symbol (signals st)) as [info|] eqn:E.
      * right. eauto.
      * rewrite (record_undeclared _ _ _ E). auto.
Qed.

Lemma record_bucket (st : State) (symbol value : string) (info : Signal) (t : Z) :
  dict_get symbol (signals st) = Some info ->
  timeline (record st symbol value) !!! t
  = (timeline st !!! t) ++
    (if decide (t = current_time st) then [(symbol, value)] else []).
Proof.
  intros H. unfold record. rewrite H. simpl. case_decide as Ht.
  - subst t. apply lookup_total_insert_eq.
  - rewrite lookup_total_insert_ne by congruence. rewrite app_nil_r. reflexivity.
Qed.

(** The two views over a run: while no declaration is read, what the
    history of a symbol gains at a time [t] is what the bucket of [t] gains
    for that symbol, in the same order. *)
Theorem views_agree (lines : list string) (st st' : State) (symbol : string)
    (info : Signal) :
  Forall (fun raw => Py.startswith (Py.strip raw) "$var" = false) lines ->
  run st lines = Ok st' ->
  dict_get symbol (signals st) = Some info ->
  exists added,
    dict_get symbol (signals st')
      = Some {| name := name info; width := width info; type := type info;
                values := values info ++ added |} /\
    forall t, exists grown,
      timeline st' !!! t = (timeline st !!! t) ++ grown /\
      bucket_of symbol grown = history_at t added.
Proof.
  intros Hlines. revert st info.
  induction Hlines as [|raw rest Hv _ IH]; intros st info Hrun Hinfo; simpl in Hrun.
  - injection Hrun as <-. exists []. rewrite app_nil_r. split.
    + rewrite Hinfo. destruct info; reflexivity.
    + intros t. exists []. rewrite app_nil_r. auto.
  - destruct (step st raw) as [st1|e] eqn:E; [|discriminate]. simpl in Hrun.
    destruct (step_effect _ _ _ Hv E)
      as [(Hs & Ht)|(sym & value & info0 & Hinfo0 & ->)].
    + rewrite <- Hs in Hinfo.
      destruct (IH _ _ Hrun Hinfo) as (added & Hadd & Hgrow).
      exists added. rewrite <- Ht. auto.
    + destruct (record_declared st sym value info0 Hinfo0) as (Hsame & _ & Hother & _).
      destruct (decide (symbol = sym)) as [->|Hne].
      * rewrite Hinfo in Hinfo0. injection Hinfo0 as <-.
        destruct (IH _ _ Hrun Hsame) as (added & Hadd & Hgrow).
        exists ((current_time st, value) :: added). split.
        { rewrite Hadd. simpl. rewrite <- app_assoc. reflexivity. }
        intros t. destruct (Hgrow t) as (grown & Hg & Hb).
        rewrite (record_bucket _ _ _ _ _ Hinfo), <- app_assoc in Hg.
        eexists. split; [exact Hg|].
        unfold bucket_of, history_at in *.
        rewrite filter_app, fmap_app, Hb, filter_cons. simpl.
        destruct (decide (t = current_time st)) as [->|Ht].
        { rewrite filter_cons, decide_True by reflexivity. simpl.
          rewrite decide_True by reflexivity. reflexivity. }
        rewrite decide_False by congruence. reflexivity.
      * rewrite <- (Hother symbol Hne) in Hinfo.
        destruct (IH _ _ Hrun Hinfo) as (added & Hadd & Hgrow).
        exists added. split; [exact Hadd|].
        intros t. destruct (Hgrow t) as (grown & Hg & Hb).
        rewrite (record_bucket _ _ _ _ _ Hinfo0), <- app_assoc in Hg.
        eexists. split; [exact Hg|].
        rewrite <- Hb. unfold bucket_of. rewrite filter_app. 
        case_decide; [|reflexivity].
        rewrite filter_cons, decide_False by (simpl; congruence). reflexivity.
Qed.

(** ** C6 and C10: declarations *)

Lemma declare_fields (st : State) (line marker kind field symbol nm : string)
    (rest : list string) (w : Z) :
  Py.split line = marker :: kind :: field :: symbol :: nm :: rest ->
  Py.int field = Ok w ->
  declare st line =
    Ok {| signals :=
            dict_set symbol
              {| name := nm; width := w; type := kind; values := [] |}
              (signals st);
          timeline := timeline st;
          current_time := current_time st;
          in_definitions := in_definitions st |}.
Proof.
  intros Hsplit Hint. unfold declare. rewrite Hsplit. simpl.
  rewrite Hint. reflexivity.
Qed.

(** C6.  A valid [$var] line for a symbol that is already declared
    replaces the stored name, width and kind by its own and leaves the
    symbol with an empty history, whatever the history was; the registry
    keeps one entry for the symbol and the other entries are untouched. *)
Theorem redeclaration_resets (st : State)
    (raw marker kind field symbol nm : string) (rest : list string) (w : Z)
    (old : Signal) :
  Py.startswith (Py.strip raw) "$var" = true ->
  Py.split (Py.strip raw) = marker :: kind :: field :: symbol :: nm :: rest ->
  Py.int field = Ok w ->
  dict_get symbol (signals st) = Some old ->
  exists st',
    step st raw = Ok st' /\
    dict_get symbol (signals st')
      = Some {| name := nm; width := w; type := kind; values := [] |} /\
    length (signals st') = length (signals st) /\
    (forall other, other <> symbol ->
       dict_get other (signals st') = dict_get other (signals st)).
Proof.
  intros Hv Hsplit Hint Hold.
  eexists. split.
  - rewrite (step_var _ _ Hv). apply (declare_fields _ _ _ _ _ _ _ _ _ Hsplit Hint).
  - simpl. split; [apply dict_get_set_eq|]. split.
    + apply dict_set_length. rewrite Hold. eauto.
    + intros other Hne. apply dict_get_set_ne. congruence.
Qed.

Lemma redeclaration_resets_witness :
  let st := {| signals := [("!", {| name := "clk"; width := 1; type := "wire";
                                    values := [(0, "1"); (5, "0")] |})];
               timeline := {[ 0 := [("!", "1")]; 5 := [("!", "0")] ]};
               current_time := 5; in_definitions := true |} in
  exists st',
    step st ("$var reg 8 ! m_data $end" +:+ newline) = Ok st' /\
    signals st' = [("!", {| name := "m_data"; width := 8; type := "reg";
                            values := [] |})].
Proof.
  intros st.
  destruct (redeclaration_resets st ("$var reg 8 ! m_data $end" +:+ newline)
              "$var" "reg" "8" "!" "m_data" ["$end"] 8
              {| name := "clk"; width := 1; type := "wire";
                 values := [(0, "1"); (5, "0")] |}
              eq_refl eq_refl eq_refl eq_refl) as (st' & Hstep & _).
  exists st'. split; [exact Hstep|].
  vm_compute in Hstep. injection Hstep as <-. reflexivity.
Defined.

(** C10.  A valid [$var] line is processed in the ValueChanges phase as
    well: the registry entry of its symbol is created or overwritten with
    an empty history, so the changes recorded for the symbol so far are
    gone from its history, while the phase, the time and the timeline stay
    as they are. *)
Theorem declaration_after_definitions (st : State)
    (raw marker kind field symbol nm : string) (rest : list string) (w : Z) :
  in_definitions st = false ->
  Py.startswith (Py.strip raw) "$var" = true ->
  Py.split (Py.strip raw) = marker :: kind :: field :: symbol :: nm :: rest ->
  Py.int field = Ok w ->
  exists st',
    step st raw = Ok st' /\
    dict_get symbol (signals st')
      = Some {| name := nm; width := w; type := kind; values := [] |} /\
    in_definitions st' = false /\
    current_time st' = current_time st /\
    timeline st' = timeline st.
Proof.
  intros Hphase Hv Hsplit Hint.
  eexists. split.
  - rewrite (step_var _ _ Hv). apply (declare_fields _ _ _ _ _ _ _ _ _ Hsplit Hint).
  - simpl. split; [apply dict_get_set_eq | auto].
Qed.

Lemma declaration_after_definitions_witness :
  parse_vcd (readlines ["$var wire 1 ! clk $end"; "$enddefinitions $end";
                        "#0"; "1!"; "#5"; "0!"; "$var wire 1 ! clk $end"])
  = Ok ([("!", {| name := "clk"; width := 1; type := "wire"; values := [] |})],
        {[ 0 := [("!", "1")]; 5 := [("!", "0")] ]}).
Proof.
  pose (st := {| signals := [("!", {| name := "clk"; width := 1; type := "wire";
                                      values := [(0, "1"); (5, "0")] |})];
                 timeline := {[ 0 := [("!", "1")]; 5 := [("!", "0")] ]};
                 current_time := 5; in_definitions := false |}).
  destruct (declaration_after_definitions st
              ("$var wire 1 ! clk $end" +:+ newline)
              "$var" "wire" "1" "!" "clk" ["$end"] 1
              eq_refl eq_refl eq_refl eq_refl) as (st' & Hstep & _).
  vm_compute in Hstep. injection Hstep as <-. reflexivity.
Defined.

(** ** C7: the two phases *)

Lemma run_phase (lines : list string) (st st' : State) :
  run st lines = Ok st' ->
  in_definitions st' =
    in_definitions st &&
    negb (existsb (fun raw => Py.startswith (Py.strip raw) "$enddefinitions")
            lines) /\
  (in_definitions st' = true -> current_time st' = current_time st).
Proof.
  revert st. induction lines as [|raw rest IH]; intros st H; simpl in *.
  - injection H as <-. rewrite andb_true_r. auto.
  - destruct (step st raw) as [st1|e] eqn:E; [|discriminate]. simpl in H.
    apply step_phase in E as (E1 & E2).
    apply IH in H as (H1 & H2).
    split; [rewrite H1, E1, negb_orb, andb_assoc; reflexivity|].
    intros Hdefs. rewrite (H2 Hdefs). apply E2.
    rewrite H1 in Hdefs. apply andb_true_iff in Hdefs as (Hdefs & _).
    exact Hdefs.
Qed.

(** C7.  After any number of lines, the reader is in the Definitions phase
    exactly when none of them was an end-of-definitions marker, so the
    phase never returns to Definitions once a marker was read; and while
    the phase is Definitions, [current_time] is still 0 and a timestamp
    line leaves the state as it is. *)
Theorem phase_gating (lines : list string) (st : State) :
  run initial lines = Ok st ->
  in_definitions st =
    negb (existsb (fun raw => Py.startswith (Py.strip raw) "$enddefinitions")
            lines) /\
  (in_definitions st = true ->
   current_time st = 0 /\
   forall raw, Py.startswith (Py.strip raw) "#" = true -> step st raw = Ok st).
Proof.
  intros H. apply run_phase in H as (H1 & H2). split; [exact H1|].
  intros Hdefs. split; [exact (H2 Hdefs)|].
  intros raw Hh. rewrite (step_timestamp _ _ Hh), Hdefs. reflexivity.
Qed.

Lemma phase_gating_witness :
  let st := {| signals := [("!", {| name := "clk"; width := 1; type := "wire";
                                    values := [] |})];
               timeline := ∅; current_time := 0; in_definitions := true |} in
  run initial (readlines ["#7"; "$var wire 1 ! clk $end"; "#9"; "1!"]) = Ok st /\
  step st ("#11" +:+ newline) = Ok st.
Proof.
  intros st. split; [reflexivity|].
  refine (proj2 (proj2 (phase_gating
                          (readlines ["#7"; "$var wire 1 ! clk $end"; "#9"; "1!"])
                          st eq_refl) eq_refl) ("#11" +:+ newline) eq_refl).
Defined.

(** ** C8: vector value changes *)

(** C8.  In the ValueChanges phase, a line that starts with [b] is split at
    white space; with a second token, the first token without its leading
    [b] is the value and the second token the symbol of the change that is
    recorded (when the symbol is declared); with no second token the line
    is skipped. *)
Theorem vector_change (st : State) (raw : string) :
  in_definitions st = false ->
  Py.startswith (Py.strip raw) "b" = true ->
  step st raw =
    Ok (match Py.split (Py.strip raw) with
        | token :: symbol :: _ => record st symbol (Py.from1 token)
        | _ => st
        end).
Proof.
  intros Hphase Hb.
  pose proof (split_nonempty (Py.strip raw)) as Hne.
  pose proof (decode_vector _ Hb) as Hdec.
  pose proof Hb as Hb'. apply startswith_cons in Hb' as (r & Hline & _).
  assert (Hd : Py.startswith (Py.strip raw) "$" = false)
    by (rewrite Hline; reflexivity).
  assert (Hh : Py.startswith (Py.strip raw) "#" = false)
    by (rewrite Hline; reflexivity).
  rewrite (step_change _ _ Hd Hh), Hphase, Hdec.
  replace (Py.nonempty (Py.strip raw)) with true by (rewrite Hline; reflexivity).
  simpl.
  destruct (Py.split (Py.strip raw)) as [|token [|symbol toks]]; try reflexivity.
  inversion Hne as [|? ? _ Hne']; subst.
  inversion Hne' as [|? ? Hsym _]; subst. rewrite Hsym. reflexivity.
Qed.

(** Scenario B: after [$var reg 8 # m_data $end] and [#10], the line
    [b00001010 #] puts [(10, "00001010")] into the history of [m_data];
    without the second token nothing is recorded. *)
Lemma scenario_B :
  let st := {| signals := [("#", {| name := "m_data"; width := 8; type := "reg";
                                    values := [] |})];
               timeline := ∅; current_time := 10; in_definitions := false |} in
  run initial (readlines ["$var reg 8 # m_data $end"; "$enddefinitions $end";
                          "#10"]) = Ok st /\
  step st ("b00001010 #" +:+ newline)
  = Ok {| signals := [("#", {| name := "m_data"; width := 8; type := "reg";
                               values := [(10, "00001010")] |})];
          timeline := {[ 10 := [("#", "00001010")] ]};
          current_time := 10; in_definitions := false |} /\
  step st ("b00001010" +:+ newline) = Ok st.
Proof.
  intros st. split; [reflexivity|]. split.
  - exact (vector_change st ("b00001010 #" +:+ newline) eq_refl eq_refl).
  - exact (vector_change st ("b00001010" +:+ newline) eq_refl eq_refl).
Defined.

(** ** Formatting integers *)

Lemma format_int_ok (n : Z) : printable n -> Py.format_int n = Ok tt.
Proof.
  unfold printable, Py.format_int. intros H.
  apply Z.leb_gt in H. rewrite H. reflexivity.
Qed.

Lemma print_changes_ok (vals : list (Z * string)) :
  Forall (fun tv => printable tv.1) vals -> print_changes vals = Ok tt.
Proof.
  induction 1 as [|[time value] rest Ht _ IH]; simpl; [reflexivity|].
  cbn [fst] in Ht. rewrite (format_int_ok _ Ht). exact IH.
Qed.

(** ** C9: the clock estimate of the analysis *)

(** C9, as amended.  For the signal the analysis finds under a name that
    contains [clk] in any case, whose history has at least three entries,
    at least two of them with the value ['1'], the period is the time of
    the second ['1'] entry minus the time of the first, and the frequency
    in MHz is the double [1e6 / period], the conversion for times in
    picoseconds.  This is given that the analysis can print the width and
    the times of the first ten entries (none has more digits than the
    interpreter formats), that the two times differ, and that their
    difference converts to a float. *)
Theorem clock_estimate_of_rising_edges (signal_data : list (string * Signal))
    (signal_name : string) (info : Signal) (t0 t1 : Z) (more : list Z) :
  lookup_by_name signal_data signal_name = Some info ->
  Py.contains "clk" (Py.lower signal_name) = true ->
  printable (width info) ->
  Forall (fun tv => printable tv.1) (take 10 (values info)) ->
  (3 <= length (values info))%nat ->
  rising_edges (values info) = t0 :: t1 :: more ->
  t1 <> t0 ->
  Z.abs (t1 - t0) < Py.float_overflow ->
  analyze_signal signal_data signal_name =
    Ok (Some {| shown_type := type info;
                shown_width := width info;
                transitions := length (values info);
                first_changes := take 10 (values info);
                clock := Some (t1 - t0,
                               SFdiv Py.prec Py.emax
                                 (Py.float_of_int 1000000)
                                 (Py.float_of_int (t1 - t0))) |}).
Proof.
  intros Hfind Hname Hwidth Htimes Hlen Hedges Hne Hfloat.
  unfold analyze_signal. rewrite Hfind.
  rewrite (format_int_ok _ Hwidth), (print_changes_ok _ Htimes).
  unfold clock_estimate. rewrite Hname, Hedges.
  apply Nat.leb_le in Hlen. rewrite Hlen. simpl.
  unfold Py.truediv_1e6.
  apply Z.leb_gt in Hfloat. rewrite Hfloat.
  assert (Hz : (t1 - t0 =? 0) = false) by (apply Z.eqb_neq; lia).
  rewrite Hz. reflexivity.
Qed.

Lemma clock_estimate_of_rising_edges_witness :
  analyze_signal
    [("#", {| name := "m_data"; width := 8; type := "reg"; values := [] |});
     ("!", {| name := "sys_CLK"; width := 1; type := "wire";
              values := [(0, "1"); (5000, "0"); (10000, "1"); (15000, "0")] |})]
    "sys_CLK"
  = Ok (Some {| shown_type := "wire"; shown_width := 1; transitions := 4;
                first_changes := [(0, "1"); (5000, "0"); (10000, "1");
                                  (15000, "0")];
                clock := Some (10000, S754_finite false 7036874417766400 (-46)) |}).
Proof.
  pose (clk := {| name := "sys_CLK"; width := 1; type := "wire";
                  values := [(0, "1"); (5000, "0"); (10000, "1");
                             (15000, "0")] |}).
  assert (Hwidth : printable (width clk)) by (vm_compute; reflexivity).
  assert (Htimes : Forall (fun tv => printable tv.1) (take 10 (values clk)))
    by (repeat constructor; vm_compute; reflexivity).
  assert (Hlen : (3 <= length (values clk))%nat) by (simpl; lia).
  assert (Hne : 10000 <> 0) by discriminate.
  exact (clock_estimate_of_rising_edges
           [("#", {| name := "m_data"; width := 8; type := "reg";
                     values := [] |}); ("!", clk)]
           "sys_CLK" clk 0 10000 [] eq_refl eq_refl Hwidth Htimes Hlen eq_refl
           Hne eq_refl).
Defined.

(** C9, as stated, fails: a signal named [clk] with exactly two entries,
    both ['1'], has two ['1'] entries but gets no period estimate, since
    the analysis asks for three entries first. *)
Lemma two_entries_no_estimate :
  let info := {| name := "clk"; width := 1; type := "wire";
                 values := [(0, "1"); (10, "1")] |} in
  Py.contains "clk" (Py.lower "clk") = true /\
  rising_edges (values info) = [0; 10] /\
  analyze_signal [("!", info)] "clk"
  = Ok (Some {| shown_type := "wire"; shown_width := 1; transitions := 2;
                first_changes := [(0, "1"); (10, "1")]; clock := None |}).
Proof. repeat split. Qed.

Example split_var :
  Py.split "$var wire 1 ! clk $end" = ["$var"; "wire"; "1"; "!"; "clk"; "$end"].
Proof. reflexivity. Qed.

Example int_literals :
  Py.int " -1_000 " = Ok (-1000) /\ Py.int "abc" = Raise ValueError /\
  Py.int "1__0" = Raise ValueError /\ Py.int "" = Raise ValueError /\
  Py.int "+07" = Ok 7.
Proof. repeat split. Qed.

Example strip_line :
  Py.strip ("  b00001010 #" +:+ newline) = "b00001010 #".
Proof. reflexivity. Qed.

Example split_white_space :
  Py.split (String "009" "  a" +:+ String "028" " bc  d" +:+ newline)
  = ["a"; "bc"; "d"].
Proof. reflexivity. Qed.

Example lower_mixed_case : Py.lower "Sys_CLK[3]" = "sys_clk[3]".
Proof. reflexivity. Qed.

(** A timestamp that is no integer, behind the marker, ends the parse; in
    front of the marker it is not read at all. *)
Example timestamp_not_an_integer :
  parse_vcd (readlines ["$enddefinitions $end"; "#abc"]) = Raise ValueError /\
  parse_vcd (readlines ["#abc"; "$enddefinitions $end"]) = Ok ([], ∅).
Proof. split; reflexivity. Qed.

(** Two ['1'] entries at the same time give the period 0, and the division
    raises. *)
Example equal_rising_edges :
  analyze_signal
    [("!", {| name := "clk"; width := 1; type := "wire";
              values := [(0, "1"); (0, "1"); (5, "0")] |})] "clk"
  = Raise ZeroDivisionError.
Proof. reflexivity. Qed.

(** Of two signals with one name, the analysis sees the one declared
    first. *)
Example first_declared_name_wins :
  lookup_by_name
    [("!", {| name := "clk"; width := 1; type := "wire"; values := [] |});
     ("#", {| name := "clk"; width := 8; type := "reg"; values := [] |})] "clk"
  = Some {| name := "clk"; width := 1; type := "wire"; values := [] |} /\
  analyze_signal [] "clk" = Ok None.
Proof. split; reflexivity. Qed.

(** * Further properties of the reader and of its consumers *)

(** ** White space around a line *)

Lemma lstrip_by_idem (sp : ascii -> bool) (s : string) :
  Py.lstrip_by sp (Py.lstrip_by sp s) = Py.lstrip_by sp s.
Proof.
  induction s as [|c r IH]; simpl; [reflexivity|].
  destruct (sp c) eqn:E; [exact IH|]. simpl. rewrite E. reflexivity.
Qed.

Lemma rstrip_by_idem (sp : ascii -> bool) (s : string) :
  Py.rstrip_by sp (Py.rstrip_by sp s) = Py.rstrip_by sp s.
Proof.
  induction s as [|c r IH]; simpl; [reflexivity|].
  destruct (sp c && negb (Py.nonempty (Py.rstrip_by sp r))) eqn:E;
    [reflexivity|].
  simpl. rewrite IH, E. reflexivity.
Qed.

Lemma rstrip_by_lstrip_by (sp : ascii -> bool) (s : string) :
  Py.rstrip_by sp s = s ->
  Py.rstrip_by sp (Py.lstrip_by sp s) = Py.lstrip_by sp s.
Proof.
  induction s as [|c r IH]; intros H; [reflexivity|].
  simpl. destruct (sp c) eqn:E; [|exact H].
  apply IH. simpl in H. rewrite E in H. simpl in H.
  destruct (Py.nonempty (Py.rstrip_by sp r)); simpl in H; congruence.
Qed.

Lemma strip_idem (s : string) : Py.strip (Py.strip s) = Py.strip s.
Proof.
  unfold Py.strip.
  rewrite (rstrip_by_lstrip_by _ _ (rstrip_by_idem _ s)).
  apply lstrip_by_idem.
Qed.

(** White space in front of a line and behind it, the line terminator
    included, is without effect: the reader does on the lines what it does
    on the stripped lines. *)
Theorem surrounding_space_ignored (lines : list string) :
  parse_vcd (Py.strip <$> lines) = parse_vcd lines.
Proof.
  unfold parse_vcd. f_equal. generalize initial.
  induction lines as [|raw rest IH]; intros st; simpl; [reflexivity|].
  replace (step st (Py.strip raw)) with (step st raw)
    by (unfold step; rewrite strip_idem; reflexivity).
  destruct (step st raw); simpl; [apply IH | reflexivity].
Qed.

(** ** Lines the reader passes over *)

(** A line that is neither a declaration, nor the marker, nor a timestamp,
    and that does not begin with one of [0], [1], [x], [X], [b], changes
    nothing in either phase: scopes, time scales, dump commands, [$end],
    empty lines, real and string changes are all passed over, and none of
    them raises. *)
Theorem unrecognised_line_inert (st : State) (raw : string) :
  Py.startswith (Py.strip raw) "$var" = false ->
  Py.startswith (Py.strip raw) "$enddefinitions" = false ->
  Py.startswith (Py.strip raw) "#" = false ->
  (forall c rest,
     Py.strip raw = String c rest ->
     c ∉ ["0"; "1"; "x"; "X"; "b"]%char) ->
  step st raw = Ok st.
Proof.
  intros Hv He Hh Hc.
  destruct (Py.startswith (Py.strip raw) "$") eqn:Hd.
  - apply step_inert_dollar; assumption.
  - rewrite (step_change _ _ Hd Hh).
    destruct (_ && _); [|reflexivity].
    destruct (Py.strip raw) as [|c rest] eqn:Hline; [reflexivity|].
    specialize (Hc c rest eq_refl).
    unfold decode.
    destruct (Py.contains (String c EmptyString) "01xX") eqn:E.
    + apply contains_01xX in E. exfalso. apply Hc.
      destruct E as [->|[->|[->| ->]]]; set_solver.
    + rewrite andb_false_r.
      destruct (Py.startswith (String c rest) "b") eqn:Hb; [|reflexivity].
      apply startswith_cons in Hb as (r & [= -> _] & _).
      exfalso. apply Hc. set_solver.
Qed.

Lemma unrecognised_line_inert_witness :
  let st := {| signals := [("!", {| name := "clk"; width := 1; type := "wire";
                                    values := [] |})];
               timeline := ∅; current_time := 3; in_definitions := false |} in
  step st ("$dumpvars" +:+ newline) = Ok st /\
  step st ("r1.5 !" +:+ newline) = Ok st /\
  step st newline = Ok st.
Proof.
  intros st. split; [|split].
  - apply (unrecognised_line_inert st ("$dumpvars" +:+ newline));
      try reflexivity.
    intros c rest H. injection H as <- _. intros Hin.
    repeat (apply elem_of_cons in Hin as [Hin|Hin]; [discriminate Hin|]).
    inversion Hin.
  - apply (unrecognised_line_inert st ("r1.5 !" +:+ newline));
      try reflexivity.
    intros c rest H. injection H as <- _. intros Hin.
    repeat (apply elem_of_cons in Hin as [Hin|Hin]; [discriminate Hin|]).
    inversion Hin.
  - apply (unrecognised_line_inert st newline); try reflexivity.
    intros c rest H. discriminate H.
Defined.

(** In the Definitions phase only declarations and the marker are read: any
    other line, a value change of a declared symbol included, leaves the
    state as it is. *)
Theorem definitions_phase_reads_declarations_only (st : State) (raw : string) :
  in_definitions st = true ->
  Py.startswith (Py.strip raw) "$var" = false ->
  Py.startswith (Py.strip raw) "$enddefinitions" = false ->
  step st raw = Ok st.
Proof.
  intros Hphase Hv He.
  destruct (Py.startswith (Py.strip raw) "$") eqn:Hd.
  - apply step_inert_dollar; assumption.
  - destruct (Py.startswith (Py.strip raw) "#") eqn:Hh.
    + rewrite (step_timestamp _ _ Hh), Hphase. reflexivity.
    + rewrite (step_change _ _ Hd Hh), Hphase. reflexivity.
Qed.

Lemma definitions_phase_reads_declarations_only_witness :
  let st := {| signals := [("!", {| name := "clk"; width := 1; type := "wire";
                                    values := [] |})];
               timeline := ∅; current_time := 0; in_definitions := true |} in
  step st ("1!" +:+ newline) = Ok st.
Proof.
  intros st.
  exact (definitions_phase_reads_declarations_only st ("1!" +:+ newline)
           eq_refl eq_refl eq_refl).
Defined.

(** ** What one line does to the registry and to the timeline *)

Lemma declare_inv (st st' : State) (line : string) :
  declare st line = Ok st' ->
  exists marker kind field symbol nm rest w,
    Py.split line = marker :: kind :: field :: symbol :: nm :: rest /\
    Py.int field = Ok w /\
    signals st' =
      dict_set symbol {| name := nm; width := w; type := kind; values := [] |}
        (signals st) /\
    timeline st' = timeline st /\
    current_time st' = current_time st.
Proof.
  unfold declare, Py.index. intros H.
  destruct (Py.split line) as [|marker [|kind [|field [|symbol [|nm rest]]]]];
    simpl in H; try discriminate;
    destruct (Py.int field) as [w|] eqn:E; simpl in H; try discriminate.
  injection H as <-. exists marker, kind, field, symbol, nm, rest, w. auto.
Qed.

Lemma step_views (st st' : State) (raw : string) :
  step st raw = Ok st' ->
  (signals st' = signals st /\ timeline st' = timeline st) \/
  (exists marker kind field symbol nm rest w,
     Py.split (Py.strip raw) = marker :: kind :: field :: symbol :: nm :: rest /\
     signals st' =
       dict_set symbol {| name := nm; width := w; type := kind; values := [] |}
         (signals st) /\
     timeline st' = timeline st) \/
  (exists symbol value info,
     dict_get symbol (signals st) = Some info /\
     st' = record st symbol value).
Proof.
  intros H.
  destruct (Py.startswith (Py.strip raw) "$var") eqn:Hv.
  - rewrite (step_var _ _ Hv) in H.
    apply declare_inv in H
      as (marker & kind & field & symbol & nm & rest & w & H1 & _ & H2 & H3 & _).
    right; left. exists marker, kind, field, symbol, nm, rest, w. auto.
  - destruct (step_effect _ _ _ Hv H) as [?|?]; auto.
Qed.

Lemma run_invariant (P : State -> Prop) (lines : list string) (st st' : State) :
  (forall s raw s', P s -> step s raw = Ok s' -> P s') ->
  P st -> run st lines = Ok st' -> P st'.
Proof.
  intros Hstep. revert st.
  induction lines as [|raw rest IH]; intros st HP H; simpl in H.
  - injection H as <-. exact HP.
  - destruct (step st raw) as [st1|e] eqn:E; [|discriminate].
    simpl in H. eauto.
Qed.

Lemma parse_vcd_inv (lines : list string) (sigs : list (string * Signal))
    (tl : gmap Z (list (string * string))) :
  parse_vcd lines = Ok (sigs, tl) ->
  exists st, run initial lines = Ok st /\ signals st = sigs /\ timeline st = tl.
Proof.
  unfold parse_vcd. destruct (run initial lines) as [st|e]; simpl;
    [|discriminate].
  intros [= <- <-]. eauto.
Qed.

Section DictKeys.
Context {V : Type}.
Implicit Types (d : list (string * V)) (k : string) (v : V).

Lemma dict_get_elem k v d : dict_get k d = Some v -> (k, v) ∈ d.
Proof.
  induction d as [|[k0 v0] r IH]; simpl; [discriminate|].
  destruct (String.eqb k k0) eqn:E.
  - apply String.eqb_eq in E as <-. intros [= ->]. apply elem_of_cons. auto.
  - intros H. apply elem_of_cons. auto.
Qed.

Lemma dict_get_None k d : dict_get k d = None <-> k ∉ d.*1.
Proof.
  induction d as [|[k0 v0] r IH]; simpl.
  - split; [intros _ H; inversion H | reflexivity].
  - rewrite not_elem_of_cons.
    destruct (String.eqb k k0) eqn:E.
    + apply String.eqb_eq in E. split; [discriminate | tauto].
    + apply String.eqb_neq in E. tauto.
Qed.

Lemma dict_set_keys k v d :
  (dict_set k v d).*1 =
    match dict_get k d with
    | Some _ => d.*1
    | None => d.*1 ++ [k]
    end.
Proof.
  induction d as [|[k0 v0] r IH]; [reflexivity|].
  cbn [dict_set dict_get].
  destruct (String.eqb k k0) eqn:E; [reflexivity|].
  rewrite !fmap_cons, IH. destruct (dict_get k r); reflexivity.
Qed.

Lemma dict_set_Forall (Q : string -> Prop) (R : V -> Prop) k v d :
  Q k -> R v ->
  Forall (fun e => Q e.1 /\ R e.2) d ->
  Forall (fun e => Q e.1 /\ R e.2) (dict_set k v d).
Proof.
  intros Hk Hv. induction 1 as [|[k0 v0] r [H0 H0'] Hr IH]; simpl.
  - repeat constructor; assumption.
  - destruct (String.eqb k k0); constructor; auto.
Qed.
End DictKeys.

Lemma elem_of_dict_set {V : Type} (k : string) (v : V) (d : list (string * V))
    (e : string * V) :
  e ∈ dict_set k v d -> e ∈ d \/ e = (k, v).
Proof.
  induction d as [|[k0 v0] r IH]; simpl.
  - intros H. apply list_elem_of_singleton in H. auto.
  - destruct (String.eqb k k0) eqn:E; intros H;
      apply elem_of_cons in H as [->|H].
    + apply String.eqb_eq in E as ->. auto.
    + left. apply elem_of_cons. auto.
    + left. apply elem_of_cons. auto.
    + destruct (IH H) as [?|?]; [left; apply elem_of_cons|]; auto.
Qed.

Lemma record_keys (st : State) (symbol value : string) :
  (signals (record st symbol value)).*1 = (signals st).*1.
Proof.
  unfold record. destruct (dict_get symbol (signals st)) eqn:E; [|reflexivity].
  simpl. rewrite dict_set_keys, E. reflexivity.
Qed.

Lemma step_keys (st st' : State) (raw : string) :
  step st raw = Ok st' ->
  (signals st').*1 = (signals st).*1 \/
  exists symbol, (symbol ∉ (signals st).*1) /\
                 (signals st').*1 = (signals st).*1 ++ [symbol].
Proof.
  intros H.
  destruct (step_views _ _ _ H)
    as [(-> & _)|[(? & ? & ? & symbol & ? & ? & ? & _ & -> & _)
                 |(symbol & value & info & _ & ->)]].
  - auto.
  - rewrite dict_set_keys.
    destruct (dict_get symbol (signals st)) eqn:E; [auto|].
    right. exists symbol. split; [apply dict_get_None, E | reflexivity].
  - left. apply record_keys.
Qed.

(** ** The registry over a run *)

(** No symbol is ever removed from the registry and none changes its place:
    the symbols before a run are, in their order, the first symbols after
    it.  A declaration of a known symbol keeps the symbol where it is. *)
Theorem declared_symbols_stay (lines : list string) (st st' : State) :
  run st lines = Ok st' ->
  (signals st).*1 `prefix_of` (signals st').*1.
Proof.
  apply (run_invariant (fun s => (signals st).*1 `prefix_of` (signals s).*1));
    [|reflexivity].
  intros s raw s' Hpre Hstep.
  destruct (step_keys _ _ _ Hstep) as [->|(symbol & _ & ->)]; [exact Hpre|].
  etransitivity; [exact Hpre|]. apply prefix_app_r. reflexivity.
Qed.

Lemma declared_symbols_stay_witness :
  let st := {| signals := [("!", {| name := "clk"; width := 1; type := "wire";
                                    values := [(0, "1")] |});
                           ("#", {| name := "m_data"; width := 8; type := "reg";
                                    values := [] |})];
               timeline := {[ 0 := [("!", "1")] ]};
               current_time := 0; in_definitions := false |} in
  exists st',
    run st (readlines ["$var wire 1 * m_valid $end"; "$var reg 4 ! count $end"])
      = Ok st' /\
    (signals st').*1 = ["!"; "#"; "*"] /\
    ["!"; "#"] `prefix_of` (signals st').*1.
Proof.
  intros st. eexists. split; [reflexivity|]. split; [reflexivity|].
  exact (declared_symbols_stay
           (readlines ["$var wire 1 * m_valid $end"; "$var reg 4 ! count $end"])
           st _ eq_refl).
Defined.

(** The registry returned by a parse has one entry for a symbol: no symbol
    occurs twice among its keys. *)
Theorem one_entry_per_symbol (lines : list string)
    (sigs : list (string * Signal)) (tl : gmap Z (list (string * string))) :
  parse_vcd lines = Ok (sigs, tl) -> NoDup sigs.*1.
Proof.
  intros H. apply parse_vcd_inv in H as (st & Hrun & <- & _).
  revert Hrun. apply (run_invariant (fun s => NoDup (signals s).*1)).
  - intros s raw s' Hnd Hstep.
    destruct (step_keys _ _ _ Hstep) as [->|(symbol & Hnew & ->)];
      [exact Hnd|].
    apply NoDup_app. split; [exact Hnd|]. split.
    + intros x Hx Hin. apply list_elem_of_singleton in Hin as ->. auto.
    + apply NoDup_singleton.
  - constructor.
Qed.

Lemma one_entry_per_symbol_witness :
  NoDup ["!"; "#"].
Proof.
  exact (one_entry_per_symbol
           (readlines ["$var wire 1 ! clk $end"; "$var reg 8 # m_data $end";
                       "$var wire 1 ! clock $end"])
           [("!", {| name := "clock"; width := 1; type := "wire";
                     values := [] |});
            ("#", {| name := "m_data"; width := 8; type := "reg";
                     values := [] |})]
           ∅ eq_refl).
Defined.

(** ** The timeline over a run *)

(** The timeline is only ever appended to: the bucket of every time before
    a run is the front part of that bucket after the run.  A declaration
    that empties a history leaves the timeline alone. *)
Theorem timeline_only_grows (lines : list string) (st st' : State) (t : Z) :
  run st lines = Ok st' ->
  (timeline st !!! t) `prefix_of` (timeline st' !!! t).
Proof.
  apply (run_invariant
           (fun s => (timeline st !!! t) `prefix_of` (timeline s !!! t)));
    [|reflexivity].
  intros s raw s' Hpre Hstep.
  destruct (step_views _ _ _ Hstep)
    as [(_ & ->)|[(? & ? & ? & ? & ? & ? & ? & _ & _ & ->)
                 |(symbol & value & info & Hinfo & ->)]];
    try exact Hpre.
  rewrite (record_bucket _ _ _ _ _ Hinfo).
  apply prefix_app_r, Hpre.
Qed.

Lemma timeline_only_grows_witness :
  let st := {| signals := [("!", {| name := "clk"; width := 1; type := "wire";
                                    values := [(0, "1")] |})];
               timeline := {[ 0 := [("!", "1")] ]};
               current_time := 0; in_definitions := false |} in
  exists st',
    run st (readlines ["$var wire 1 ! clk $end"; "0!"; "#4"; "1!"]) = Ok st' /\
    timeline st' !!! 0 = [("!", "1"); ("!", "0")] /\
    [("!", "1")] `prefix_of` (timeline st' !!! 0).
Proof.
  intros st. eexists. split; [reflexivity|]. split; [reflexivity|].
  exact (timeline_only_grows
           (readlines ["$var wire 1 ! clk $end"; "0!"; "#4"; "1!"])
           st _ 0 eq_refl).
Defined.

(** A time is a key of the returned timeline only if a change was recorded
    at it: no bucket is empty, so the number of keys is the number of times
    with a recorded change. *)
Theorem no_empty_bucket (lines : list string) (sigs : list (string * Signal))
    (tl : gmap Z (list (string * string))) (t : Z)
    (bucket : list (string * string)) :
  parse_vcd lines = Ok (sigs, tl) ->
  tl !! t = Some bucket ->
  bucket <> [].
Proof.
  intros H. apply parse_vcd_inv in H as (st & Hrun & _ & <-).
  revert t bucket. revert Hrun.
  apply (run_invariant
           (fun s => forall t bucket, timeline s !! t = Some bucket -> bucket <> [])).
  - intros s raw s' Hinv Hstep.
    destruct (step_views _ _ _ Hstep)
      as [(_ & ->)|[(? & ? & ? & ? & ? & ? & ? & _ & _ & ->)
                   |(symbol & value & info & Hinfo & ->)]];
      try exact Hinv.
    intros t bucket. unfold record. rewrite Hinfo. simpl.
    destruct (decide (current_time s = t)) as [->|Hne].
    + rewrite lookup_insert_eq. intros [= <-] Hnil.
      apply app_eq_nil in Hnil as (_ & Hnil). discriminate.
    + rewrite lookup_insert_ne by assumption. apply Hinv.
  - intros t bucket Hlook. cbn [timeline initial] in Hlook.
    rewrite lookup_empty in Hlook. discriminate.
Qed.

Lemma no_empty_bucket_witness :
  [("!", "1")] <> @nil (string * string).
Proof.
  exact (no_empty_bucket
           (readlines ["$var wire 1 ! clk $end"; "$enddefinitions $end";
                       "#3"; "#5"; "1!"])
           [("!", {| name := "clk"; width := 1; type := "wire";
                     values := [(5, "1")] |})]
           {[ 5 := [("!", "1")] ]} 5 [("!", "1")] eq_refl eq_refl).
Defined.

Lemma dict_get_set_is_Some {V : Type} (k k' : string) (v : V)
    (d : list (string * V)) :
  is_Some (dict_get k' d) -> is_Some (dict_get k' (dict_set k v d)).
Proof.
  intros H. destruct (decide (k = k')) as [->|Hne].
  - rewrite dict_get_set_eq. eauto.
  - rewrite dict_get_set_ne by assumption. exact H.
Qed.

(** Every pair in the returned timeline names a symbol of the returned
    registry: a change is recorded for declared symbols only, and
    declarations stay. *)
Theorem timeline_symbols_declared (lines : list string)
    (sigs : list (string * Signal)) (tl : gmap Z (list (string * string)))
    (t : Z) (symbol value : string) :
  parse_vcd lines = Ok (sigs, tl) ->
  (symbol, value) ∈ tl !!! t ->
  is_Some (dict_get symbol sigs).
Proof.
  intros H. apply parse_vcd_inv in H as (st & Hrun & <- & <-).
  revert t symbol value. revert Hrun.
  apply (run_invariant
           (fun s => forall t symbol value,
              (symbol, value) ∈ timeline s !!! t ->
              is_Some (dict_get symbol (signals s)))).
  - intros s raw s' Hinv Hstep.
    destruct (step_views _ _ _ Hstep)
      as [(-> & ->)|[(? & ? & ? & k & ? & ? & ? & _ & -> & ->)
                    |(k & v & info & Hinfo & ->)]].
    + exact Hinv.
    + intros t symbol value Hin. apply dict_get_set_is_Some. eauto.
    + intros t symbol value Hin.
      rewrite (record_bucket _ _ _ _ _ Hinfo) in Hin.
      unfold record. rewrite Hinfo. simpl.
      apply elem_of_app in Hin as [Hin|Hin].
      * apply dict_get_set_is_Some. eauto.
      * case_decide; [|inversion Hin].
        apply list_elem_of_singleton in Hin as [= -> ->].
        rewrite dict_get_set_eq. eauto.
  - intros t symbol value Hin. cbn [timeline initial] in Hin.
    rewrite lookup_total_empty in Hin. inversion Hin.
Qed.

Lemma timeline_symbols_declared_witness :
  is_Some (dict_get "!" [("!", {| name := "data"; width := 4; type := "reg";
                                  values := [] |})]).
Proof.
  refine (timeline_symbols_declared
            (readlines ["$var wire 1 ! clk $end"; "$enddefinitions $end";
                        "1!"; "$var reg 4 ! data $end"])
            _ {[ 0 := [("!", "1")] ]} 0 "!" "1" eq_refl _).
  apply list_elem_of_singleton. reflexivity.
Defined.

(** The history of a symbol is the tail of what the timeline holds for it:
    at every time, the values of the history are, in their order, the last
    values of the bucket for that symbol.  (They are all of them unless a
    later declaration of the symbol has emptied the history.) *)
Theorem history_within_timeline (lines : list string)
    (sigs : list (string * Signal)) (tl : gmap Z (list (string * string)))
    (symbol : string) (info : Signal) (t : Z) :
  parse_vcd lines = Ok (sigs, tl) ->
  dict_get symbol sigs = Some info ->
  history_at t (values info) `suffix_of` bucket_of symbol (tl !!! t).
Proof.
  intros H. apply parse_vcd_inv in H as (st & Hrun & <- & <-).
  revert symbol info t. revert Hrun.
  apply (run_invariant
           (fun s => forall symbol info t,
              dict_get symbol (signals s) = Some info ->
              history_at t (values info)
                `suffix_of` bucket_of symbol (timeline s !!! t))).
  - intros s raw s' Hinv Hstep.
    destruct (step_views _ _ _ Hstep)
      as [(-> & ->)|[(? & ? & ? & k & ? & ? & ? & _ & -> & ->)
                    |(k & v & info0 & Hinfo0 & ->)]].
    + exact Hinv.
    + intros symbol info t. destruct (decide (k = symbol)) as [->|Hne].
      * rewrite dict_get_set_eq. intros [= <-]. apply suffix_nil.
      * rewrite dict_get_set_ne by assumption. apply Hinv.
    + intros symbol info t Hget.
      destruct (record_declared s k v info0 Hinfo0) as (Hsame & _ & Hother & _).
      rewrite (record_bucket _ _ _ _ _ Hinfo0).
      unfold bucket_of, history_at. rewrite filter_app, fmap_app.
      destruct (decide (symbol = k)) as [->|Hne].
      * rewrite Hsame in Hget. injection Hget as <-. simpl.
        rewrite filter_app, fmap_app.
        destruct (decide (t = current_time s)) as [->|Ht].
        { rewrite !filter_cons, !decide_True by reflexivity. simpl.
          apply suffix_app, Hinv, Hinfo0. }
        rewrite filter_cons, decide_False by (simpl; congruence).
        simpl. rewrite !app_nil_r. apply Hinv, Hinfo0.
      * rewrite (Hother symbol Hne) in Hget.
        case_decide.
        { rewrite filter_cons, decide_False by (simpl; congruence).
          simpl. rewrite app_nil_r. apply Hinv, Hget. }
        simpl. rewrite app_nil_r. apply Hinv, Hget.
  - intros symbol info t Hget. discriminate.
Qed.

Lemma history_within_timeline_witness :
  history_at 0 [(0, "0")] `suffix_of` bucket_of "!" [("!", "1"); ("!", "0")].
Proof.
  exact (history_within_timeline
           (readlines ["$var wire 1 ! clk $end"; "$enddefinitions $end";
                       "1!"; "$var wire 1 ! clk $end"; "0!"])
           [("!", {| name := "clk"; width := 1; type := "wire";
                     values := [(0, "0")] |})]
           {[ 0 := [("!", "1"); ("!", "0")] ]}
           "!" {| name := "clk"; width := 1; type := "wire";
                  values := [(0, "0")] |} 0 eq_refl eq_refl).
Defined.

(** ** Histories in time order *)

Lemma step_time_kept (st st' : State) (raw : string) :
  Py.startswith (Py.strip raw) "#" = false ->
  step st raw = Ok st' ->
  current_time st' = current_time st.
Proof.
  intros Hh H.
  destruct (Py.startswith (Py.strip raw) "$") eqn:Hd.
  - destruct (Py.startswith (Py.strip raw) "$var") eqn:Hv.
    { rewrite (step_var _ _ Hv) in H. apply declare_frame in H. tauto. }
    destruct (Py.startswith (Py.strip raw) "$enddefinitions") eqn:He.
    { rewrite (step_enddefinitions _ _ He) in H. injection H as <-. reflexivity. }
    rewrite (step_inert_dollar _ _ Hd Hv He) in H. injection H as <-. reflexivity.
  - rewrite (step_change _ _ Hd Hh) in H.
    destruct (_ && _); [|injection H as <-; reflexivity].
    destruct (decode _) as [[[symbol value]|]|]; simpl in H;
      [| injection H as <-; reflexivity | discriminate].
    destruct (Py.nonempty symbol); injection H as <-; [|reflexivity].
    destruct (record_frame st symbol value) as (Ht & _). exact Ht.
Qed.

Lemma StronglySorted_snoc (l : list Z) (x : Z) :
  StronglySorted Z.le l -> Forall (fun t => t <= x) l ->
  StronglySorted Z.le (l ++ [x]).
Proof.
  induction 1 as [|a l Hl IH Ha]; intros Hx; simpl.
  - repeat constructor.
  - apply Forall_cons in Hx as (Hax & Hx). constructor; [auto|].
    apply Forall_app. split; [exact Ha | repeat constructor; exact Hax].
Qed.

Lemma step_in_time_order (st st' : State) (raw : string) :
  current_time st <= current_time st' ->
  step st raw = Ok st' ->
  in_time_order st -> in_time_order st'.
Proof.
  intros Hle Hstep Hinv.
  assert (Hweak : forall symbol info,
             dict_get symbol (signals st) = Some info ->
             StronglySorted Z.le (values info).*1 /\
             Forall (fun t => t <= current_time st') (values info).*1).
  { intros symbol info Hget. destruct (Hinv _ _ Hget) as (Hs & Hb).
    split; [exact Hs|]. eapply Forall_impl; [exact Hb|].
    intros t Ht. simpl in Ht. lia. }
  destruct (step_views _ _ _ Hstep)
    as [(Hs & _)|[(? & ? & ? & k & ? & ? & ? & _ & Hs & _)
                 |(k & v & info0 & Hinfo0 & ->)]].
  - intros symbol info. rewrite Hs. apply Hweak.
  - intros symbol info. rewrite Hs.
    destruct (decide (k = symbol)) as [->|Hne].
    + rewrite dict_get_set_eq. intros [= <-]. simpl. split; constructor.
    + rewrite dict_get_set_ne by assumption. apply Hweak.
  - destruct (record_frame st k v) as (Ht & _).
    destruct (record_declared st k v info0 Hinfo0) as (Hsame & _ & Hother & _).
    intros symbol info Hget.
    destruct (decide (symbol = k)) as [->|Hne].
    + rewrite Hsame in Hget. injection Hget as <-. simpl.
      rewrite fmap_app. simpl.
      destruct (Hinv _ _ Hinfo0) as (Hs & Hb). split.
      * apply StronglySorted_snoc; assumption.
      * rewrite Ht. apply Forall_app. split; [exact Hb|].
        repeat constructor. lia.
    + rewrite (Hother _ Hne) in Hget. exact (Hweak _ _ Hget).
Qed.

Lemma run_in_time_order (lines : list string) (st st' : State) :
  run st lines = Ok st' ->
  StronglySorted Z.le (current_time st :: stamps lines) ->
  in_time_order st -> in_time_order st'.
Proof.
  revert st. induction lines as [|raw rest IH]; intros st Hrun Hsorted Hinv;
    simpl in Hrun.
  - injection Hrun as <-. exact Hinv.
  - destruct (step st raw) as [st1|e] eqn:E; [|discriminate]. simpl in Hrun.
    unfold stamps in Hsorted. simpl in Hsorted. fold (stamps rest) in Hsorted.
    destruct (Py.startswith (Py.strip raw) "#") eqn:Hh.
    + pose proof (step_timestamp st raw Hh) as Hts. rewrite E in Hts.
      destruct (in_definitions st) eqn:D.
      * injection Hts as ->. apply (IH st Hrun); [|exact Hinv].
        destruct (Py.int _); [|exact Hsorted].
        apply StronglySorted_inv in Hsorted as (Hs & Hb).
        apply StronglySorted_inv in Hs as (Hs & _).
        apply Forall_cons in Hb as (_ & Hb). constructor; assumption.
      * destruct (Py.int _) as [t|]; [|discriminate]. simpl in Hts.
        injection Hts as ->.
        apply StronglySorted_inv in Hsorted as (Hs & Hb).
        apply Forall_cons in Hb as (Hle & _).
        apply (IH _ Hrun); [exact Hs|].
        apply (step_in_time_order st _ raw); [exact Hle | exact E | exact Hinv].
    + pose proof (step_time_kept _ _ _ Hh E) as Ht.
      apply (IH _ Hrun); [rewrite Ht; exact Hsorted|].
      apply (step_in_time_order st _ raw); [lia | exact E | exact Hinv].
Qed.

(** When the integers behind the [#] of the file are not negative and never
    decrease, the history of every signal is in time order.  (The reader
    itself accepts a timestamp that goes back.) *)
Theorem histories_in_time_order (lines : list string)
    (sigs : list (string * Signal)) (tl : gmap Z (list (string * string)))
    (symbol : string) (info : Signal) :
  parse_vcd lines = Ok (sigs, tl) ->
  StronglySorted Z.le (0 :: stamps lines) ->
  dict_get symbol sigs = Some info ->
  StronglySorted Z.le (values info).*1.
Proof.
  intros H Hsorted Hget.
  apply parse_vcd_inv in H as (st & Hrun & <- & _).
  assert (Hinit : in_time_order initial) by (intros ? ? ?; discriminate).
  destruct (run_in_time_order _ _ _ Hrun Hsorted Hinit _ _ Hget) as (Hs & _).
  exact Hs.
Qed.

Lemma histories_in_time_order_witness :
  StronglySorted Z.le (0 :: stamps (readlines ["#1"; "$var wire 1 ! clk $end";
                                               "$enddefinitions $end"; "#2";
                                               "1!"; "0!"; "#9"; "1!"])) /\
  StronglySorted Z.le [2; 2; 9].
Proof.
  pose (clk := {| name := "clk"; width := 1; type := "wire";
                  values := [(2, "1"); (2, "0"); (9, "1")] |}).
  assert (Hsorted : StronglySorted Z.le [0; 1; 2; 9])
    by (repeat constructor; lia).
  split; [exact Hsorted|].
  assert (Hparse :
            parse_vcd (readlines ["#1"; "$var wire 1 ! clk $end";
                                  "$enddefinitions $end"; "#2"; "1!"; "0!";
                                  "#9"; "1!"])
            = Ok ([("!", clk)],
                  {[ 2 := [("!", "1"); ("!", "0")]; 9 := [("!", "1")] ]}))
    by reflexivity.
  pose proof (histories_in_time_order _ _ _ "!" clk Hparse) as H.
  specialize (H Hsorted). exact (H eq_refl).
Defined.

(** A timestamp that goes back is taken as it is, and the history is then
    out of time order. *)
Example timestamp_going_back :
  parse_vcd (readlines ["$var wire 1 ! clk $end"; "$enddefinitions $end";
                        "#9"; "1!"; "#2"; "0!"])
  = Ok ([("!", {| name := "clk"; width := 1; type := "wire";
                  values := [(9, "1"); (2, "0")] |})],
        {[ 9 := [("!", "1")]; 2 := [("!", "0")] ]}).
Proof. reflexivity. Qed.

(** ** What the registry holds *)

Lemma split_tokens (s : string) :
  Forall (fun tok => token tok = true) (Py.split s).
Proof.
  unfold token.
  induction s as [|c r IH]; simpl; [constructor|].
  destruct (Py.isspace c) eqn:Ec; [assumption|].
  destruct r as [|c' r'].
  { repeat constructor. simpl. rewrite Ec. reflexivity. }
  destruct (Py.isspace c') eqn:Ec'.
  { constructor; [|assumption]. simpl. rewrite Ec. reflexivity. }
  destruct (Py.split (String c' r')) as [|tok toks].
  - repeat constructor. simpl. rewrite Ec. reflexivity.
  - apply Forall_cons in IH as (Htok & Htoks). constructor; [|assumption].
    apply andb_true_iff in Htok as (_ & Htok).
    simpl. rewrite Ec, Htok. reflexivity.
Qed.

Lemma run_tokens (lines : list string) (st : State) :
  run initial lines = Ok st ->
  Forall (fun e => token e.1 = true /\
                   (token (name e.2) = true /\ token (type e.2) = true))
    (signals st).
Proof.
  apply (run_invariant
           (fun s => Forall (fun e => token e.1 = true /\
                                      (token (name e.2) = true /\
                                       token (type e.2) = true))
                       (signals s))); [|constructor].
  intros s raw s' Hinv Hstep.
  destruct (step_views _ _ _ Hstep)
    as [(-> & _)|[(marker & kind & field & k & nm & rest & w & Hsplit & -> & _)
                 |(k & v & info0 & Hinfo0 & ->)]].
  - exact Hinv.
  - pose proof (split_tokens (Py.strip raw)) as Htok. rewrite Hsplit in Htok.
    apply Forall_cons in Htok as (_ & Htok).
    apply Forall_cons in Htok as (Hkind & Htok).
    apply Forall_cons in Htok as (_ & Htok).
    apply Forall_cons in Htok as (Hk & Htok).
    apply Forall_cons in Htok as (Hnm & _).
    apply (dict_set_Forall (fun k => token k = true)
             (fun i => token (name i) = true /\ token (type i) = true));
      auto.
  - unfold record. rewrite Hinfo0. simpl.
    pose proof (dict_get_elem _ _ _ Hinfo0) as Hin.
    rewrite Forall_forall in Hinv. destruct (Hinv _ Hin) as (Hk & Hi).
    apply (dict_set_Forall (fun k => token k = true)
             (fun i => token (name i) = true /\ token (type i) = true));
      [exact Hk | exact Hi | apply Forall_forall, Hinv].
Qed.

Lemma run_declared_by (all lines : list string) (st st' : State) :
  (forall raw, raw ∈ lines -> raw ∈ all) ->
  (forall symbol info, (symbol, info) ∈ signals st -> declared_by all symbol info) ->
  run st lines = Ok st' ->
  forall symbol info, (symbol, info) ∈ signals st' -> declared_by all symbol info.
Proof.
  revert st. induction lines as [|raw rest IH]; intros st Hall Hinv Hrun;
    simpl in Hrun.
  - injection Hrun as <-. exact Hinv.
  - destruct (step st raw) as [st1|e] eqn:Hstep; [|discriminate].
    simpl in Hrun.
    apply (IH st1); [intros r Hr; apply Hall, elem_of_cons; auto | | exact Hrun].
    assert (Hraw : raw ∈ all) by (apply Hall, elem_of_cons; auto).
    destruct (Py.startswith (Py.strip raw) "$var") eqn:Hv.
    + rewrite (step_var _ _ Hv) in Hstep.
      apply declare_inv in Hstep
        as (marker & kind & field & k & nm & tail & w & Hsplit & Hint & -> & _).
      intros symbol info Hin.
      apply elem_of_dict_set in Hin as [Hin|[= -> ->]]; [eauto|].
      exists raw, marker, field, tail. auto.
    + destruct (step_effect _ _ _ Hv Hstep)
        as [(-> & _)|(k & v & info0 & Hinfo0 & ->)]; [exact Hinv|].
      intros symbol info Hin. unfold record in Hin.
      rewrite Hinfo0 in Hin. simpl in Hin.
      apply elem_of_dict_set in Hin as [Hin|[= -> ->]]; [eauto|].
      exact (Hinv _ _ (dict_get_elem _ _ _ Hinfo0)).
Qed.

(** Every record of the returned registry stems from a declaration line of
    the input: its symbol, name, kind and width are the fourth, fifth,
    second and third white-space separated field of a line that starts
    with [$var] (the width as [int] reads that field); so symbol, name and
    kind are not empty and hold no white space. *)
Theorem registry_holds_tokens (lines : list string)
    (sigs : list (string * Signal)) (tl : gmap Z (list (string * string)))
    (symbol : string) (info : Signal) :
  parse_vcd lines = Ok (sigs, tl) ->
  (symbol, info) ∈ sigs ->
  declared_by lines symbol info /\
  token symbol = true /\ token (name info) = true /\ token (type info) = true.
Proof.
  intros H Hin. apply parse_vcd_inv in H as (st & Hrun & <- & _).
  split.
  - apply (run_declared_by lines lines initial st); auto.
    intros k i Hk. inversion Hk.
  - pose proof (run_tokens _ _ Hrun) as Hall.
    rewrite Forall_forall in Hall. exact (Hall _ Hin).
Qed.

Lemma registry_holds_tokens_witness :
  let lines := readlines ["  $var reg 8 #   m_data[7:0] $end"] in
  let m_data := {| name := "m_data[7:0]"; width := 8; type := "reg";
                   values := [] |} in
  declared_by lines "#" m_data /\
  token "#" = true /\ token "m_data[7:0]" = true /\ token "reg" = true.
Proof.
  intros lines m_data.
  assert (Hparse : parse_vcd lines = Ok ([("#", m_data)], ∅)) by reflexivity.
  refine (registry_holds_tokens _ _ _ "#" m_data Hparse _).
  apply list_elem_of_singleton. reflexivity.
Defined.

(** The scalar form has no separator: in a state the reader has reached, a
    line such as [1 !], with white space inside what follows the value,
    records nothing, because no registered symbol holds white space. *)
Theorem scalar_with_separator_dropped (lines : list string) (st : State)
    (raw rest : string) (c : ascii) :
  run initial lines = Ok st ->
  Py.strip raw = String c rest ->
  c ∈ ["0"; "1"; "x"; "X"]%char ->
  no_space rest = false ->
  step st raw = Ok st.
Proof.
  intros Hrun Hline Hc Hspace.
  assert (Hc' : Py.contains (String c EmptyString) "01xX" = true).
  { apply contains_01xX.
    repeat (apply elem_of_cons in Hc as [Hc|Hc]; [tauto|]). inversion Hc. }
  assert (Hd : Py.startswith (Py.strip raw) "$" = false).
  { rewrite Hline. apply contains_01xX in Hc'.
    destruct Hc' as [->|[->|[->| ->]]]; reflexivity. }
  assert (Hh : Py.startswith (Py.strip raw) "#" = false).
  { rewrite Hline. apply contains_01xX in Hc'.
    destruct Hc' as [->|[->|[->| ->]]]; reflexivity. }
  rewrite (step_change _ _ Hd Hh), Hline.
  destruct (_ && _); [|reflexivity].
  unfold decode. rewrite Hc'.
  destruct rest as [|c' rest']; [discriminate Hspace|].
  simpl. apply f_equal, record_undeclared.
  destruct (dict_get (String c' rest') (signals st)) as [info|] eqn:E;
    [|reflexivity].
  apply dict_get_elem in E.
  pose proof (run_tokens _ _ Hrun) as Hall. rewrite Forall_forall in Hall.
  destruct (Hall _ E) as (Htok & _). cbn [fst] in Htok. unfold token in Htok.
  apply andb_true_iff in Htok as (_ & Htok). congruence.
Qed.

Lemma scalar_with_separator_dropped_witness :
  let st := {| signals := [("!", {| name := "clk"; width := 1; type := "wire";
                                    values := [] |})];
               timeline := ∅; current_time := 0; in_definitions := false |} in
  run initial (readlines ["$var wire 1 ! clk $end"; "$enddefinitions $end"])
    = Ok st /\
  step st ("1 !" +:+ newline) = Ok st.
Proof.
  intros st. split; [reflexivity|].
  refine (scalar_with_separator_dropped
            (readlines ["$var wire 1 ! clk $end"; "$enddefinitions $end"])
            st ("1 !" +:+ newline) " !" "1" eq_refl eq_refl _ eq_refl).
  apply elem_of_cons. right. apply elem_of_cons. left. reflexivity.
Defined.

(** ** Looking a declaration up by its name *)

Lemma lookup_by_name_set (d : list (string * Signal)) (symbol : string)
    (fresh : Signal) :
  (forall k info, (k, info) ∈ d -> k <> symbol -> name info <> name fresh) ->
  lookup_by_name (dict_set symbol fresh d) (name fresh) = Some fresh.
Proof.
  unfold lookup_by_name.
  induction d as [|[k0 v0] r IH]; intros Hd; simpl.
  - rewrite String.eqb_refl. reflexivity.
  - destruct (String.eqb symbol k0) eqn:E; simpl.
    + rewrite String.eqb_refl. reflexivity.
    + apply String.eqb_neq in E.
      assert (Hn : name v0 <> name fresh).
      { apply (Hd k0 v0); [apply elem_of_cons; auto | congruence]. }
      apply String.eqb_neq in Hn. rewrite Hn. apply IH.
      intros k info Hin. apply Hd. apply elem_of_cons. auto.
Qed.

(** After a valid declaration, the search by name finds the declared
    record, with its width and kind and an empty history, provided no
    other symbol of the registry carries that name; the search returns
    the first record of a name in declaration order. *)
Theorem declared_then_found (st : State)
    (raw marker kind field symbol nm : string) (rest : list string) (w : Z) :
  Py.startswith (Py.strip raw) "$var" = true ->
  Py.split (Py.strip raw) = marker :: kind :: field :: symbol :: nm :: rest ->
  Py.int field = Ok w ->
  (forall k info, (k, info) ∈ signals st -> k <> symbol -> name info <> nm) ->
  exists st',
    step st raw = Ok st' /\
    lookup_by_name (signals st') nm
      = Some {| name := nm; width := w; type := kind; values := [] |}.
Proof.
  intros Hv Hsplit Hint Hnames. eexists. split.
  - rewrite (step_var _ _ Hv).
    apply (declare_fields _ _ _ _ _ _ _ _ _ Hsplit Hint).
  - simpl.
    apply (lookup_by_name_set (signals st) symbol
             {| name := nm; width := w; type := kind; values := [] |}).
    exact Hnames.
Qed.

Lemma declared_then_found_witness :
  let st := {| signals := [("!", {| name := "clk"; width := 1; type := "wire";
                                    values := [(0, "1")] |});
                           ("#", {| name := "old"; width := 2; type := "reg";
                                    values := [(0, "11")] |})];
               timeline := ∅; current_time := 0; in_definitions := true |} in
  exists st',
    step st ("$var reg 8 # m_data $end" +:+ newline) = Ok st' /\
    lookup_by_name (signals st') "m_data"
      = Some {| name := "m_data"; width := 8; type := "reg"; values := [] |}.
Proof.
  intros st.
  refine (declared_then_found st ("$var reg 8 # m_data $end" +:+ newline)
            "$var" "reg" "8" "#" "m_data" ["$end"] 8
            eq_refl eq_refl eq_refl _).
  intros k info Hin Hk.
  apply elem_of_cons in Hin as [[= -> ->]|Hin]; [discriminate|].
  apply elem_of_cons in Hin as [[= -> ->]|Hin]; [congruence | inversion Hin].
Defined.

(** With the name already carried by a symbol declared earlier, the search
    finds the earlier record, not the one just declared. *)
Example earlier_name_shadows :
  (forall sigs tl,
     parse_vcd (readlines ["$var wire 1 ! data $end"; "$var reg 8 # data $end"])
       = Ok (sigs, tl) ->
     lookup_by_name sigs "data"
       = Some {| name := "data"; width := 1; type := "wire"; values := [] |}).
Proof. intros sigs tl [= <- _]. reflexivity. Qed.

(** ** The exceptions of the reader *)

Lemma digits_raise (s : string) (acc : Z) (n : nat) (after_digit : bool) (e : exn) :
  Py.digits acc n after_digit s = Raise e -> e = ValueError.
Proof.
  revert acc n after_digit.
  induction s as [|c r IH]; intros acc n after_digit; simpl.
  - destruct (_ && _); [discriminate | congruence].
  - destruct (Py.digit c); [apply IH|].
    destruct (_ && _); [apply IH | congruence].
Qed.

Lemma int_raise (s : string) (e : exn) : Py.int s = Raise e -> e = ValueError.
Proof.
  unfold Py.int.
  destruct (Py.lstrip_by _ _) as [|c r]; [apply digits_raise|].
  destruct (Ascii.eqb c "-") eqn:Em.
  { apply Ascii.eqb_eq in Em as ->.
    destruct (Py.digits 0 0 false r) eqn:E; simpl; [discriminate|].
    intros [= <-]. exact (digits_raise _ _ _ _ _ E). }
  destruct (Ascii.eqb c "+") eqn:Ep.
  { apply Ascii.eqb_eq in Ep as ->. apply digits_raise. }
  intros H.
  assert (Hd : Py.digits 0 0 false (String c r) = Raise e).
  { destruct c as [[] [] [] [] [] [] [] []]; try exact H; discriminate. }
  exact (digits_raise _ _ _ _ _ Hd).
Qed.

Lemma declare_raise (st : State) (line : string) (e : exn) :
  declare st line = Raise e ->
  (e = IndexError /\ (length (Py.split line) < 5)%nat) \/
  (e = ValueError /\
   exists field, Py.split line !! 2%nat = Some field /\
                 Py.int field = Raise ValueError).
Proof.
  unfold declare, Py.index. intros H.
  destruct (Py.split line) as [|a [|b [|c l]]]; simpl in H;
    try (injection H as <-; left; split; [reflexivity | simpl; lia]).
  destruct (Py.int c) as [w|e'] eqn:E; simpl in H.
  - destruct l as [|d [|f l]]; simpl in H; try discriminate;
      injection H as <-; left; split; try reflexivity; simpl; lia.
  - injection H as <-. pose proof (int_raise _ _ E) as ->.
    right. split; [reflexivity|]. exists c. auto.
Qed.

Lemma step_raise (st : State) (raw : string) (e : exn) :
  step st raw = Raise e ->
  (Py.startswith (Py.strip raw) "$var" = true /\
   declare st (Py.strip raw) = Raise e) \/
  (Py.startswith (Py.strip raw) "#" = true /\
   e = ValueError /\
   Py.int (Py.from1 (Py.strip raw)) = Raise ValueError).
Proof.
  intros H.
  destruct (Py.startswith (Py.strip raw) "$var") eqn:Hv.
  { rewrite (step_var _ _ Hv) in H. auto. }
  destruct (Py.startswith (Py.strip raw) "$") eqn:Hd.
  - destruct (Py.startswith (Py.strip raw) "$enddefinitions") eqn:He.
    + rewrite (step_enddefinitions _ _ He) in H. discriminate.
    + rewrite (step_inert_dollar _ _ Hd Hv He) in H. discriminate.
  - destruct (Py.startswith (Py.strip raw) "#") eqn:Hh.
    + rewrite (step_timestamp _ _ Hh) in H.
      destruct (in_definitions st); [discriminate|].
      destruct (Py.int _) as [t|e'] eqn:E; simpl in H; [discriminate|].
      injection H as <-. pose proof (int_raise _ _ E) as ->. auto.
    + rewrite (step_change _ _ Hd Hh) in H.
      destruct (_ && _); [|discriminate].
      destruct (decode_total (Py.strip raw)) as (change & Hdec).
      rewrite Hdec in H. simpl in H.
      destruct change as [[symbol value]|]; [|discriminate].
      destruct (Py.nonempty symbol); discriminate.
Qed.

(** The reader raises nothing but [IndexError] and [ValueError], and each
    comes from one line of the input: [IndexError] from a line that starts
    with [$var] and has fewer than five fields, [ValueError] from such a
    line whose third field is no integer or from a line that starts with
    [#] and has no integer behind it. *)
Theorem parse_raises_on_a_line (lines : list string) (e : exn) :
  parse_vcd lines = Raise e ->
  exists raw,
    raw ∈ lines /\
    ((e = IndexError /\
      Py.startswith (Py.strip raw) "$var" = true /\
      (length (Py.split (Py.strip raw)) < 5)%nat) \/
     (e = ValueError /\
      Py.startswith (Py.strip raw) "$var" = true /\
      exists field, Py.split (Py.strip raw) !! 2%nat = Some field /\
                    Py.int field = Raise ValueError) \/
     (e = ValueError /\
      Py.startswith (Py.strip raw) "#" = true /\
      Py.int (Py.from1 (Py.strip raw)) = Raise ValueError)).
Proof.
  unfold parse_vcd. intros H.
  assert (Hrun : run initial lines = Raise e).
  { destruct (run initial lines); simpl in H; [discriminate|].
    injection H as ->. reflexivity. }
  clear H. revert Hrun. generalize initial.
  induction lines as [|raw rest IH]; intros st H; simpl in H; [discriminate|].
  destruct (step st raw) as [st1|e'] eqn:E; simpl in H.
  - destruct (IH _ H) as (raw' & Hin & Hcase).
    exists raw'. split; [apply elem_of_cons; auto | exact Hcase].
  - injection H as ->. exists raw. split; [apply elem_of_cons; auto|].
    destruct (step_raise _ _ _ E) as [(Hv & Hd)|(Hh & -> & Hint)]; [|auto].
    destruct (declare_raise _ _ _ Hd) as [(-> & Hlen)|(-> & Hfield)]; auto.
Qed.

Lemma parse_raises_on_a_line_witness :
  let lines := readlines ["$var wire 1 ! clk $end"; "$enddefinitions $end";
                          "#1O"] in
  parse_vcd lines = Raise ValueError /\
  exists raw,
    raw ∈ lines /\
    ((ValueError = IndexError /\
      Py.startswith (Py.strip raw) "$var" = true /\
      (length (Py.split (Py.strip raw)) < 5)%nat) \/
     (ValueError = ValueError /\
      Py.startswith (Py.strip raw) "$var" = true /\
      exists field, Py.split (Py.strip raw) !! 2%nat = Some field /\
                    Py.int field = Raise ValueError) \/
     (ValueError = ValueError /\
      Py.startswith (Py.strip raw) "#" = true /\
      Py.int (Py.from1 (Py.strip raw)) = Raise ValueError)).
Proof.
  intros lines. split; [reflexivity|].
  exact (parse_raises_on_a_line lines ValueError eq_refl).
Defined.

(** ** The analysis: when it finds nothing and when it raises *)

Lemma lookup_by_name_None (signal_data : list (string * Signal))
    (signal_name : string) :
  lookup_by_name signal_data signal_name = None <->
  forall symbol info, (symbol, info) ∈ signal_data -> name info <> signal_name.
Proof.
  unfold lookup_by_name.
  induction signal_data as [|[k0 v0] r IH]; simpl.
  - split; [intros _ ? ? Hin; inversion Hin | reflexivity].
  - destruct (String.eqb (name v0) signal_name) eqn:E; simpl.
    + apply String.eqb_eq in E. split; [discriminate|].
      intros H. exfalso. apply (H k0 v0); [apply elem_of_cons; auto | exact E].
    + apply String.eqb_neq in E. rewrite IH. split.
      * intros H symbol info Hin.
        apply elem_of_cons in Hin as [[= -> ->]|Hin];
          [exact E | exact (H symbol info Hin)].
      * intros H symbol info Hin. apply (H symbol info), elem_of_cons. auto.
Qed.

Lemma format_int_cases (n : Z) :
  (printable n /\ Py.format_int n = Ok tt) \/
  (Py.str_limit <= Z.abs n /\ Py.format_int n = Raise ValueError).
Proof.
  unfold printable, Py.format_int.
  destruct (Py.str_limit <=? Z.abs n) eqn:E.
  - apply Z.leb_le in E. auto.
  - apply Z.leb_gt in E. auto.
Qed.

Lemma print_changes_cases (vals : list (Z * string)) :
  (Forall (fun tv => printable tv.1) vals /\ print_changes vals = Ok tt) \/
  ((exists tv, tv ∈ vals /\ Py.str_limit <= Z.abs tv.1) /\
   print_changes vals = Raise ValueError).
Proof.
  induction vals as [|[time value] rest IH]; simpl.
  - left. split; [constructor | reflexivity].
  - destruct (format_int_cases time) as [(Ht & ->)|(Ht & ->)]; simpl.
    + destruct IH as [(Hall & ->)|((tv & Hin & Htv) & ->)].
      * left. split; [constructor; assumption | reflexivity].
      * right. split; [|reflexivity].
        exists tv. split; [apply elem_of_cons; auto | exact Htv].
    + right. split; [|reflexivity].
      exists (time, value). split; [apply elem_of_cons; auto | exact Ht].
Qed.

(** The analysis reports that the signal is not found exactly when no
    record of the registry carries the name; it raises nothing then. *)
Theorem analysis_not_found (signal_data : list (string * Signal))
    (signal_name : string) :
  analyze_signal signal_data signal_name = Ok None <->
  forall symbol info, (symbol, info) ∈ signal_data -> name info <> signal_name.
Proof.
  rewrite <- lookup_by_name_None. unfold analyze_signal.
  destruct (lookup_by_name signal_data signal_name) as [info|];
    [|split; reflexivity].
  destruct (Py.format_int (width info)) as [[]|]; simpl;
    [|split; discriminate].
  destruct (print_changes (take 10 (values info))) as [[]|]; simpl;
    [|split; discriminate].
  destruct (clock_estimate _ _); simpl; split; discriminate.
Qed.

Lemma float_overflow_positive : (Py.float_overflow <=? 0) = false.
Proof. reflexivity. Qed.

Lemma truediv_1e6_raise (n : Z) (e : exn) :
  Py.truediv_1e6 n = Raise e <->
  (n = 0 /\ e = ZeroDivisionError) \/
  (Py.float_overflow <= Z.abs n /\ e = OverflowError).
Proof.
  unfold Py.truediv_1e6.
  destruct (Py.float_overflow <=? Z.abs n) eqn:Ho.
  - apply Z.leb_le in Ho. split.
    + intros [= <-]. auto.
    + intros [(-> & _)|(_ & ->)]; [|reflexivity].
      pose proof float_overflow_positive as Hp. apply Z.leb_gt in Hp.
      change (Z.abs 0) with 0 in Ho. lia.
  - apply Z.leb_gt in Ho.
    destruct (n =? 0) eqn:Hz.
    + apply Z.eqb_eq in Hz. split.
      * intros [= <-]. auto.
      * intros [(_ & ->)|(Hge & _)]; [reflexivity | lia].
    + apply Z.eqb_neq in Hz. split; [discriminate|].
      intros [(Hn & _)|(Hge & _)]; [contradiction | lia].
Qed.

Lemma clock_estimate_raise (signal_name : string) (vals : list (Z * string))
    (e : exn) :
  clock_estimate signal_name vals = Raise e <->
  Py.contains "clk" (Py.lower signal_name) = true /\
  (3 <= length vals)%nat /\
  exists t0 t1 more,
    rising_edges vals = t0 :: t1 :: more /\
    ((t1 = t0 /\ e = ZeroDivisionError) \/
     (Py.float_overflow <= Z.abs (t1 - t0) /\ e = OverflowError)).
Proof.
  split.
  - unfold clock_estimate.
    destruct (Py.contains "clk" (Py.lower signal_name)) eqn:Hname;
      [|simpl; discriminate].
    destruct (3 <=? length vals)%nat eqn:Hlen; [|simpl; discriminate].
    apply Nat.leb_le in Hlen. simpl.
    destruct (rising_edges vals) as [|t0 [|t1 more]] eqn:Hedges;
      simpl; try discriminate.
    destruct (Py.truediv_1e6 (t1 - t0)) as [f|e'] eqn:E; simpl; [discriminate|].
    intros [= <-]. split; [reflexivity|]. split; [exact Hlen|].
    exists t0, t1, more. split; [reflexivity|].
    apply truediv_1e6_raise in E as [(Hz & ->)|?]; [left | right; assumption].
    split; [lia | reflexivity].
  - intros (Hname & Hlen & t0 & t1 & more & Hedges & Hcase).
    unfold clock_estimate. rewrite Hname, Hedges.
    apply Nat.leb_le in Hlen. rewrite Hlen. simpl.
    assert (Hr : Py.truediv_1e6 (t1 - t0) = Raise e).
    { apply truediv_1e6_raise.
      destruct Hcase as [(-> & ->)|?]; [left | right; assumption].
      split; [lia | reflexivity]. }
    rewrite Hr. reflexivity.
Qed.

(** The analysis raises in two situations only, both for a signal it has
    found.  [ValueError]: the width, or the time of one of the first ten
    entries, has more digits than the interpreter formats.  Otherwise: the
    name contains [clk] in some case, the history has at least three
    entries and at least two ['1'] entries, and the times of the first two
    ['1'] entries are equal ([ZeroDivisionError]) or differ by more than a
    float holds ([OverflowError]). *)
Theorem analysis_raises_iff (signal_data : list (string * Signal))
    (signal_name : string) (e : exn) :
  analyze_signal signal_data signal_name = Raise e <->
  exists info,
    lookup_by_name signal_data signal_name = Some info /\
    ((e = ValueError /\
      (Py.str_limit <= Z.abs (width info) \/
       exists tv, tv ∈ take 10 (values info) /\ Py.str_limit <= Z.abs tv.1)) \/
     (printable (width info) /\
      Forall (fun tv => printable tv.1) (take 10 (values info)) /\
      Py.contains "clk" (Py.lower signal_name) = true /\
      (3 <= length (values info))%nat /\
      exists t0 t1 more,
        rising_edges (values info) = t0 :: t1 :: more /\
        ((t1 = t0 /\ e = ZeroDivisionError) \/
         (Py.float_overflow <= Z.abs (t1 - t0) /\ e = OverflowError)))).
Proof.
  unfold analyze_signal.
  destruct (lookup_by_name signal_data signal_name) as [info|];
    [|split; [discriminate | intros (? & ? & _); discriminate]].
  assert (Hunprintable : forall n, printable n -> Py.str_limit <= Z.abs n -> False)
    by (unfold printable; intros; lia).
  destruct (format_int_cases (width info)) as [(Hw & ->)|(Hw & ->)]; simpl.
  2:{ split.
      - intros [= <-]. exists info. auto.
      - intros (? & [= <-] & [(-> & _)|(Hp & _)]); [reflexivity|].
        exfalso. eauto. }
  destruct (print_changes_cases (take 10 (values info)))
    as [(Ht & ->)|((tv & Hin & Htv) & ->)]; simpl.
  2:{ split.
      - intros [= <-]. exists info. split; [reflexivity|]. left. eauto.
      - intros (? & [= <-] & [(-> & _)|(_ & Hall & _)]); [reflexivity|].
        exfalso. rewrite Forall_forall in Hall. eauto. }
  destruct (clock_estimate signal_name (values info)) as [clk|e'] eqn:E; simpl.
  - split; [discriminate|].
    intros (? & [= <-] & [(_ & [Hge|(tv & Hin & Htv)])|(_ & _ & Hclk)]).
    + exfalso. eauto.
    + exfalso. rewrite Forall_forall in Ht. eauto.
    + apply clock_estimate_raise in Hclk. congruence.
  - split.
    + intros [= <-]. exists info. split; [reflexivity|]. right.
      apply clock_estimate_raise in E. tauto.
    + intros (? & [= <-] & [(_ & [Hge|(tv & Hin & Htv)])|(_ & _ & Hclk)]).
      * exfalso. eauto.
      * exfalso. rewrite Forall_forall in Ht. eauto.
      * apply clock_estimate_raise in Hclk. congruence.
Qed.

(** ** The samples handed to the plots *)

(** With a limit that is not 0, the samples of a signal are the entries of
    its history up to the first one later than the limit: their times are
    the front part of the times of the history, none is later than the
    limit, and the first entry left out, if there is one, is later than
    the limit (what comes behind it is left out whatever its time). *)
Theorem samples_stop_at_max_time (signal_info : Signal) (m : Z)
    (history : list (Z * string)) :
  m <> 0 ->
  (samples signal_info (Some m) history).*1 `prefix_of` history.*1 /\
  Forall (fun t => t <= m) (samples signal_info (Some m) history).*1 /\
  (forall tv,
     history !! length (samples signal_info (Some m) history) = Some tv ->
     m < tv.1).
Proof.
  intros Hm. apply Z.eqb_neq in Hm.
  induction history as [|[time value] rest (IH1 & IH2 & IH3)]; simpl.
  - split; [reflexivity|]. split; [constructor|]. intros tv H. discriminate.
  - rewrite Hm. simpl. destruct (m <? time) eqn:E.
    + apply Z.ltb_lt in E. split; [apply prefix_nil|].
      split; [constructor|]. intros tv [= <-]. exact E.
    + apply Z.ltb_ge in E. split; [apply prefix_cons, IH1|].
      split; [constructor; assumption | exact IH3].
Qed.

Lemma samples_stop_at_max_time_witness :
  (samples {| name := "clk"; width := 1; type := "wire"; values := [] |}
     (Some 100) [(0, "1"); (50, "0"); (150, "1"); (60, "0")]).*1 = [0; 50] /\
  Forall (fun t => t <= 100) [0; 50].
Proof.
  split; [reflexivity|].
  assert (Hm : 100 <> 0) by discriminate.
  exact (proj1 (proj2 (samples_stop_at_max_time
                         {| name := "clk"; width := 1; type := "wire";
                            values := [] |}
                         100 [(0, "1"); (50, "0"); (150, "1"); (60, "0")] Hm))).
Defined.

(** Without a limit, and with the limit 0 as well, every entry of the
    history gives a sample: the limit 0 does not cut at time 0. *)
Theorem samples_without_limit (signal_info : Signal) (max_time : option Z)
    (history : list (Z * string)) :
  max_time = None \/ max_time = Some 0 ->
  (samples signal_info max_time history).*1 = history.*1.
Proof.
  intros Hmax.
  assert (Hpast : forall time, past max_time time = false)
    by (intros time; destruct Hmax as [->| ->]; reflexivity).
  induction history as [|[time value] rest IH]; [reflexivity|].
  cbn [samples]. rewrite Hpast, !fmap_cons, IH. reflexivity.
Qed.

Lemma samples_without_limit_witness :
  (samples {| name := "clk"; width := 1; type := "wire"; values := [] |}
     (Some 0) [(0, "1"); (5, "0"); (10, "1")]).*1 = [0; 5; 10].
Proof.
  exact (samples_without_limit
           {| name := "clk"; width := 1; type := "wire"; values := [] |}
           (Some 0) [(0, "1"); (5, "0"); (10, "1")] (or_intror eq_refl)).
Defined.

(** A signal of width 1 or less is sampled at the levels 0 and 1 only, and
    at 1 exactly where its history has the value ['1']: [x], [X] and every
    other value are drawn at level 0. *)
Theorem scalar_levels (signal_info : Signal) (max_time : option Z)
    (history : list (Z * string)) :
  width signal_info <= 1 ->
  exists kept,
    kept `prefix_of` history /\
    samples signal_info max_time history
    = (fun tv => (tv.1, if String.eqb tv.2 "1" then 1 else 0)) <$> kept.
Proof.
  intros Hw. apply Z.ltb_ge in Hw.
  induction history as [|[time value] rest (kept & Hpre & IH)]; simpl.
  - exists []. split; reflexivity.
  - destruct (past max_time time).
    + exists []. split; [apply prefix_nil | reflexivity].
    + exists ((time, value) :: kept). split; [apply prefix_cons, Hpre|].
      simpl. rewrite IH. unfold level. rewrite Hw. reflexivity.
Qed.

Lemma scalar_levels_witness :
  let clk := {| name := "clk"; width := 1; type := "wire"; values := [] |} in
  let history := [(0, "1"); (5, "x"); (10, "0"); (15, "1")] in
  samples clk None history = [(0, 1); (5, 0); (10, 0); (15, 1)] /\
  exists kept,
    kept `prefix_of` history /\
    samples clk None history
    = (fun tv => (tv.1, if String.eqb tv.2 "1" then 1 else 0)) <$> kept.
Proof.
  intros clk history. split; [reflexivity|].
  assert (Hw : width clk <= 1) by (simpl; lia).
  exact (scalar_levels clk None history Hw).
Defined.

(** ** Vector values as numbers *)

Lemma strip_bit_string (bs : list bool) :
  Py.lstrip_by Py.int_isspace (Py.rstrip_by Py.int_isspace (bit_string bs))
  = bit_string bs.
Proof.
  assert (Hr : Py.rstrip_by Py.int_isspace (bit_string bs) = bit_string bs).
  { induction bs as [|b r IH]; simpl; [reflexivity|].
    rewrite IH. destruct b; reflexivity. }
  rewrite Hr. destruct bs as [|[] r]; reflexivity.
Qed.

Lemma bits_bit_string (bs : list bool) (acc : Z) (after_digit : bool) :
  bs <> [] \/ after_digit = true ->
  Py.bits acc after_digit (bit_string bs) = Ok (bit_value acc bs).
Proof.
  revert acc after_digit.
  induction bs as [|b r IH]; intros acc after_digit H; simpl.
  - destruct H as [H| ->]; [contradiction | reflexivity].
  - destruct b; simpl.
    + rewrite IH by auto. reflexivity.
    + rewrite IH by auto. rewrite Z.add_0_r. reflexivity.
Qed.

Lemma bit_value_bounds (bs : list bool) (acc : Z) :
  acc * 2 ^ Z.of_nat (length bs) <= bit_value acc bs
  < (acc + 1) * 2 ^ Z.of_nat (length bs).
Proof.
  revert acc. induction bs as [|b r IH]; intros acc.
  - simpl. lia.
  - cbn [length bit_value]. rewrite Nat2Z.inj_succ, Z.pow_succ_r by lia.
    specialize (IH (2 * acc + (if b then 1 else 0))).
    pose proof (Z.pow_pos_nonneg 2 (Z.of_nat (length r))) as Hp.
    destruct b; nia.
Qed.

(** A vector value written with binary digits only is sampled at the number
    it denotes, most significant digit first, whatever the declared width:
    the number is not negative and below 2 to the number of digits. *)
Theorem vector_level_of_bits (signal_info : Signal) (bs : list bool) :
  1 < width signal_info ->
  bs <> [] ->
  level signal_info (bit_string bs) = bit_value 0 bs /\
  0 <= bit_value 0 bs < 2 ^ Z.of_nat (length bs).
Proof.
  intros Hw Hbs. split; [|pose proof (bit_value_bounds bs 0); lia].
  unfold level. apply Z.ltb_lt in Hw. rewrite Hw.
  unfold Py.int_2. rewrite strip_bit_string.
  assert (Hu : Py.unsigned_2 (bit_string bs) = Ok (bit_value 0 bs)).
  { unfold Py.unsigned_2.
    destruct bs as [|b [|b' r]]; [contradiction | destruct b; reflexivity |].
    destruct b, b'; apply (bits_bit_string (_ :: _ :: r)); auto. }
  destruct bs as [|[] r]; [contradiction | |]; simpl in *; rewrite Hu;
    reflexivity.
Qed.

Lemma vector_level_of_bits_witness :
  level {| name := "m_data"; width := 8; type := "reg"; values := [] |}
    "00001010" = 10.
Proof.
  assert (Hw : 1 < 8) by lia.
  assert (Hbs : [false; false; false; false; true; false; true; false] <> [])
    by discriminate.
  exact (proj1 (vector_level_of_bits
                  {| name := "m_data"; width := 8; type := "reg"; values := [] |}
                  [false; false; false; false; true; false; true; false]
                  Hw Hbs)).
Defined.

Lemma chars_lstrip_by (sp : ascii -> bool) (s : string) (c : ascii) :
  c ∈ chars s -> sp c = false -> c ∈ chars (Py.lstrip_by sp s).
Proof.
  intros Hin Hc. induction s as [|a r IH]; simpl in *; [exact Hin|].
  destruct (sp a) eqn:E; [|exact Hin].
  apply elem_of_cons in Hin as [->|Hin]; [congruence | auto].
Qed.

Lemma chars_rstrip_by (sp : ascii -> bool) (s : string) (c : ascii) :
  c ∈ chars s -> sp c = false -> c ∈ chars (Py.rstrip_by sp s).
Proof.
  intros Hin Hc. induction s as [|a r IH]; simpl in *; [exact Hin|].
  apply elem_of_cons in Hin as [->|Hin].
  - rewrite Hc. simpl. apply elem_of_cons. auto.
  - specialize (IH Hin).
    destruct (Py.rstrip_by sp r) as [|a' r']; [inversion IH|].
    simpl. rewrite andb_false_r. simpl. apply elem_of_cons. auto.
Qed.

Lemma bits_raise (s : string) (acc : Z) (after_digit : bool) (c : ascii) :
  c ∈ chars s ->
  c ∉ ["0"; "1"; "_"]%char ->
  Py.bits acc after_digit s = Raise ValueError.
Proof.
  intros Hin Hc. rewrite list_elem_of_In in Hc. simpl in Hc.
  revert acc after_digit.
  induction s as [|a r IH]; intros acc after_digit; simpl in *;
    [inversion Hin|].
  apply elem_of_cons in Hin as [->|Hin].
  - destruct (Ascii.eqb a "0") eqn:E0; [apply Ascii.eqb_eq in E0; intuition congruence|].
    destruct (Ascii.eqb a "1") eqn:E1; [apply Ascii.eqb_eq in E1; intuition congruence|].
    destruct (Ascii.eqb a "_") eqn:Eu; [apply Ascii.eqb_eq in Eu; intuition congruence|].
    reflexivity.
  - destruct (Ascii.eqb a "0"); [auto|].
    destruct (Ascii.eqb a "1"); [auto|].
    destruct (Ascii.eqb a "_" && after_digit); auto.
Qed.

Lemma unsigned_2_raise (s : string) (c : ascii) :
  c ∈ chars s ->
  c ∉ ["0"; "1"; "_"; "b"; "B"]%char ->
  Py.unsigned_2 s = Raise ValueError.
Proof.
  intros Hin Hc.
  assert (Hc3 : c ∉ ["0"; "1"; "_"]%char).
  { rewrite list_elem_of_In in *. simpl in *. intuition congruence. }
  rewrite list_elem_of_In in Hc. simpl in Hc.
  assert (Hall : Py.bits 0 false s = Raise ValueError)
    by (apply (bits_raise s 0 false c); assumption).
  unfold Py.unsigned_2.
  destruct s as [|a [|p r]]; [exact Hall | |].
  { destruct a as [[] [] [] [] [] [] [] []]; exact Hall. }
  destruct (Ascii.eqb a "0") eqn:Ea.
  2:{ destruct a as [[] [] [] [] [] [] [] []]; try exact Hall; discriminate. }
  apply Ascii.eqb_eq in Ea as ->.
  destruct (Ascii.eqb p "b" || Ascii.eqb p "B") eqn:Ep; [|exact Hall].
  assert (Hr : c ∈ chars r).
  { simpl in Hin.
    apply elem_of_cons in Hin as [->|Hin]; [intuition congruence|].
    apply elem_of_cons in Hin as [->|Hin]; [|exact Hin].
    apply orb_true_iff in Ep as [Ep|Ep]; apply Ascii.eqb_eq in Ep; intuition congruence. }
  assert (Hbits : Py.bits 0 false r = Raise ValueError)
    by (apply (bits_raise r 0 false c); assumption).
  destruct r as [|u r']; [exact Hbits|].
  destruct (Ascii.eqb u "_") eqn:Eu.
  - apply Ascii.eqb_eq in Eu as ->.
    apply (bits_raise r' 0 false c); [|exact Hc3].
    simpl in Hr. apply elem_of_cons in Hr as [->|Hr]; [intuition congruence | exact Hr].
  - destruct u as [[] [] [] [] [] [] [] []]; try exact Hbits; discriminate.
Qed.

(** A vector value that holds a character which is no binary digit, no
    underscore, no sign, no [b] or [B] and no white space, such as [x] or
    [z], is sampled at 0: the failed conversion is caught. *)
Theorem vector_level_undecodable (signal_info : Signal) (value : string)
    (c : ascii) :
  1 < width signal_info ->
  c ∈ chars value ->
  Py.int_isspace c = false ->
  c ∉ ["0"; "1"; "_"; "b"; "B"; "+"; "-"]%char ->
  level signal_info value = 0.
Proof.
  intros Hw Hin Hsp Hc.
  assert (Hc5 : c ∉ ["0"; "1"; "_"; "b"; "B"]%char).
  { rewrite list_elem_of_In in *. simpl in *. intuition congruence. }
  rewrite list_elem_of_In in Hc. simpl in Hc.
  unfold level. apply Z.ltb_lt in Hw. rewrite Hw.
  assert (Hraise : Py.int_2 value = Raise ValueError);
    [|rewrite Hraise; reflexivity].
  unfold Py.int_2.
  pose proof (chars_lstrip_by _ _ _ (chars_rstrip_by _ _ _ Hin Hsp) Hsp) as Hs.
  destruct (Py.lstrip_by _ _) as [|a r]; [inversion Hs|].
  assert (Hu : Py.unsigned_2 (String a r) = Raise ValueError)
    by (apply (unsigned_2_raise _ c); assumption).
  assert (Hr : a <> c -> Py.unsigned_2 r = Raise ValueError).
  { intros Hne. apply (unsigned_2_raise _ c); [|exact Hc5].
    simpl in Hs. apply elem_of_cons in Hs as [->|Hs]; [congruence | exact Hs]. }
  destruct (Ascii.eqb a "-") eqn:Em.
  { apply Ascii.eqb_eq in Em as ->. rewrite Hr by intuition congruence. reflexivity. }
  destruct (Ascii.eqb a "+") eqn:Ep.
  { apply Ascii.eqb_eq in Ep as ->. apply Hr. intuition congruence. }
  destruct a as [[] [] [] [] [] [] [] []]; try exact Hu; discriminate.
Qed.

Lemma vector_level_undecodable_witness :
  level {| name := "m_data"; width := 8; type := "reg"; values := [] |}
    "0101xxxx" = 0.
Proof.
  assert (Hw : 1 < 8) by lia.
  refine (vector_level_undecodable
            {| name := "m_data"; width := 8; type := "reg"; values := [] |}
            "0101xxxx" "x" Hw _ eq_refl _).
  - apply list_elem_of_In. simpl. tauto.
  - intros H.
    repeat (apply elem_of_cons in H as [H|H]; [discriminate H|]).
    inversion H.
Defined.

(** ** The program as a whole *)

Lemma digit_range (c : ascii) (d : Z) : Py.digit c = Some d -> 0 <= d <= 9.
Proof.
  unfold Py.digit.
  destruct ((48 <=? N_of_ascii c) && (N_of_ascii c <=? 57))%N eqn:E;
    [|discriminate].
  apply andb_true_iff in E as (Hlo & Hhi).
  apply N.leb_le in Hlo. apply N.leb_le in Hhi. intros [= <-]. lia.
Qed.

Lemma digits_bound (s : string) (acc : Z) (n : nat) (after_digit : bool) (v : Z) :
  0 <= acc < 10 ^ Z.of_nat n ->
  Py.digits acc n after_digit s = Ok v ->
  0 <= v < Py.str_limit.
Proof.
  revert acc n after_digit.
  induction s as [|c r IH]; intros acc n after_digit Hacc; simpl.
  - destruct after_digit; simpl; [|discriminate].
    destruct (n <=? Py.int_max_str_digits)%nat eqn:E; [|discriminate].
    apply Nat.leb_le in E. intros [= <-]. unfold Py.str_limit.
    assert (10 ^ Z.of_nat n <= 10 ^ Z.of_nat Py.int_max_str_digits)
      by (apply Z.pow_le_mono_r; lia).
    lia.
  - destruct (Py.digit c) as [d|] eqn:Ed.
    + apply digit_range in Ed. apply IH.
      rewrite Nat2Z.inj_succ, Z.pow_succ_r by lia. lia.
    + destruct (_ && _); [apply IH; exact Hacc | discriminate].
Qed.

Lemma int_printable (s : string) (v : Z) : Py.int s = Ok v -> printable v.
Proof.
  assert (Hstart : 0 <= 0 < 10 ^ Z.of_nat 0) by (simpl; lia).
  assert (Hpos : forall r, Py.digits 0 0 false r = Ok v -> printable v).
  { intros r H. apply (digits_bound _ _ _ _ _ Hstart) in H.
    unfold printable. lia. }
  unfold Py.int.
  destruct (Py.lstrip_by _ _) as [|c r]; [apply Hpos|].
  destruct (Ascii.eqb c "-") eqn:Em.
  { apply Ascii.eqb_eq in Em as ->.
    destruct (Py.digits 0 0 false r) as [v'|] eqn:E; simpl; [|discriminate].
    intros [= <-]. apply (digits_bound _ _ _ _ _ Hstart) in E.
    unfold printable. lia. }
  destruct (Ascii.eqb c "+") eqn:Ep.
  { apply Ascii.eqb_eq in Ep as ->. apply Hpos. }
  intros H. apply (Hpos (String c r)).
  destruct c as [[] [] [] [] [] [] [] []]; try exact H; discriminate.
Qed.

Lemma step_current_time (st st' : State) (raw : string) :
  step st raw = Ok st' ->
  current_time st' = current_time st \/
  Py.int (Py.from1 (Py.strip raw)) = Ok (current_time st').
Proof.
  intros H. destruct (Py.startswith (Py.strip raw) "#") eqn:Hh.
  - rewrite (step_timestamp _ _ Hh) in H.
    destruct (in_definitions st); [injection H as <-; auto|].
    destruct (Py.int _) as [t|]; [|discriminate]. injection H as <-. auto.
  - left. exact (step_time_kept _ _ _ Hh H).
Qed.

(** Every integer the reader stores can be formatted: it was read by
    [int], which takes no more digits than [str] gives back. *)
Lemma run_printable (lines : list string) (st : State) :
  run initial lines = Ok st ->
  printable (current_time st) /\
  forall symbol info, (symbol, info) ∈ signals st -> printable_signal info.
Proof.
  apply (run_invariant
           (fun s => printable (current_time s) /\
                     forall symbol info,
                       (symbol, info) ∈ signals s -> printable_signal info)).
  - intros s raw s' (Htime & Hsigs) Hstep.
    assert (Htime' : printable (current_time s')).
    { destruct (step_current_time _ _ _ Hstep) as [->|Hint];
        [exact Htime | exact (int_printable _ _ Hint)]. }
    split; [exact Htime'|].
    destruct (Py.startswith (Py.strip raw) "$var") eqn:Hv.
    + rewrite (step_var _ _ Hv) in Hstep.
      apply declare_inv in Hstep
        as (? & kind & field & k & nm & ? & w & _ & Hint & -> & _).
      intros symbol info Hin.
      apply elem_of_dict_set in Hin as [Hin|[= -> ->]]; [eauto|].
      split; [exact (int_printable _ _ Hint) | constructor].
    + destruct (step_effect _ _ _ Hv Hstep)
        as [(-> & _)|(k & v & info0 & Hinfo0 & ->)]; [exact Hsigs|].
      intros symbol info Hin. unfold record in Hin.
      rewrite Hinfo0 in Hin. simpl in Hin.
      apply elem_of_dict_set in Hin as [Hin|[= -> ->]]; [eauto|].
      destruct (Hsigs _ _ (dict_get_elem _ _ _ Hinfo0)) as (Hw & Hvals).
      split; [exact Hw|]. simpl. apply Forall_app. split; [exact Hvals|].
      repeat constructor. exact Htime.
  - split; [|intros symbol info Hin; inversion Hin].
    unfold printable. simpl. apply Z.pow_pos_nonneg; lia.
Qed.

Lemma lookup_by_name_elem (signal_data : list (string * Signal))
    (signal_name : string) (info : Signal) :
  lookup_by_name signal_data signal_name = Some info ->
  exists symbol, (symbol, info) ∈ signal_data.
Proof.
  unfold lookup_by_name.
  induction signal_data as [|[k0 v0] r IH]; simpl; [discriminate|].
  destruct (String.eqb (name v0) signal_name); simpl.
  - intros [= <-]. exists k0. apply elem_of_cons. auto.
  - intros H. destruct (IH H) as (symbol & Hin).
    exists symbol. apply elem_of_cons. auto.
Qed.

Lemma analysis_without_clk (signal_data : list (string * Signal))
    (signal_name : string) :
  (forall symbol info, (symbol, info) ∈ signal_data -> printable_signal info) ->
  Py.contains "clk" (Py.lower signal_name) = false ->
  exists r, analyze_signal signal_data signal_name = Ok r.
Proof.
  intros Hsigs H. unfold analyze_signal, clock_estimate. rewrite H.
  destruct (lookup_by_name _ _) as [info|] eqn:Hfind; [|eauto].
  apply lookup_by_name_elem in Hfind as (symbol & Hin).
  destruct (Hsigs _ _ Hin) as (Hw & Hvals).
  rewrite (format_int_ok _ Hw).
  rewrite print_changes_ok; [simpl; eauto|].
  apply Forall_take, Hvals.
Qed.

Lemma plot_waveforms_ok (signals : list (string * Signal))
    (signal_names : list string) (max_time : option Z) :
  (forall symbol info, (symbol, info) ∈ signals -> printable_signal info) ->
  exists plots, plot_waveforms signals signal_names max_time = Ok plots.
Proof.
  intros Hsigs. induction signal_names as [|nm rest (plots & IH)]; simpl;
    [eauto|].
  assert (Hone : exists drawn, plot_signal signals nm max_time = Ok drawn).
  { unfold plot_signal.
    destruct (lookup_by_name signals nm) as [info|] eqn:Hfind; [|eauto].
    apply lookup_by_name_elem in Hfind as (symbol & Hin).
    destruct (Hsigs _ _ Hin) as (Hw & _).
    rewrite (format_int_ok _ Hw). simpl. eauto. }
  destruct Hone as (drawn & ->). rewrite IH. simpl. eauto.
Qed.

(** The program stops with an exception exactly when the reader raises it
    or the analysis of [clk] raises it: the analyses of [m_data], [m_valid]
    and [m_ready] and the preparation of the plots raise nothing, whatever
    the file holds. *)
Theorem main_raises_iff (lines : list string) (e : exn) :
  main lines = Raise e <->
  parse_vcd lines = Raise e \/
  exists sigs tl,
    parse_vcd lines = Ok (sigs, tl) /\
    analyze_signal sigs "clk" = Raise e.
Proof.
  unfold main.
  destruct (parse_vcd lines) as [[sigs tl]|e'] eqn:Hparse; simpl.
  2:{ split; [intros [= <-]; left; reflexivity|].
      intros [[= <-]|(? & ? & H & _)]; [reflexivity | discriminate]. }
  assert (Hsigs : forall symbol info,
             (symbol, info) ∈ sigs -> printable_signal info).
  { apply parse_vcd_inv in Hparse as (st & Hrun & <- & _).
    exact (proj2 (run_printable _ _ Hrun)). }
  destruct (analyze_signal sigs "clk") as [clk|e'] eqn:Hclk; simpl.
  2:{ split; [intros [= <-]; right; eauto|].
      intros [H|(? & ? & [= <- <-] & H)]; [discriminate | congruence]. }
  destruct (analysis_without_clk sigs "m_data" Hsigs eq_refl) as (r1 & ->).
  destruct (analysis_without_clk sigs "m_valid" Hsigs eq_refl) as (r2 & ->).
  destruct (analysis_without_clk sigs "m_ready" Hsigs eq_refl) as (r3 & ->).
  destruct (plot_waveforms_ok sigs ["clk"; "m_data"; "m_valid"; "m_ready"]
              (Some 100000) Hsigs) as (plots & Hplots).
  simpl in Hplots. simpl. rewrite Hplots. simpl.
  split; [discriminate|].
  intros [H|(? & ? & [= <- <-] & H)]; [discriminate | congruence].
Qed.

Lemma views_agree_witness :
  let st := {| signals := [("!", {| name := "clk"; width := 1; type := "wire";
                                    values := [(0, "1")] |})];
               timeline := {[ 0 := [("!", "1")] ]};
               current_time := 0; in_definitions := false |} in
  let lines := readlines ["0!"; "#5"; "1!"; "1$"] in
  exists st',
    run st lines = Ok st' /\
    exists added,
      dict_get "!" (signals st')
        = Some {| name := "clk"; width := 1; type := "wire";
                  values := [(0, "1")] ++ added |} /\
      forall t, exists grown,
        timeline st' !!! t = (timeline st !!! t) ++ grown /\
        bucket_of "!" grown = history_at t added.
Proof.
  intros st lines. eexists. split; [reflexivity|].
  refine (views_agree lines st _ "!"
            {| name := "clk"; width := 1; type := "wire"; values := [(0, "1")] |}
            _ eq_refl eq_refl).
  repeat constructor.
Defined.

(** ** Checks of the analysis on concrete inputs *)

(** The frequency is a double: for a period of 3 it is
    5726623061333333 / 2^34, the double next to 1000000 / 3. *)
Example frequency_is_a_double :
  Py.truediv_1e6 3 = Ok (S754_finite false 5726623061333333 (-34)) /\
  Py.truediv_1e6 (-5) = Ok (S754_finite true 6871947673600000 (-35)).
Proof. split; vm_compute; reflexivity. Qed.

(** The conversion to a double overflows from [float_overflow] on. *)
Example float_conversion_range :
  Py.float_of_int (Py.float_overflow - 1)
  = S754_finite false 9007199254740991 971 /\
  Py.float_of_int Py.float_overflow = S754_infinity false.
Proof. split; vm_compute; reflexivity. Qed.

(** A time of 4301 digits cannot be printed: the analysis raises
    [ValueError] whatever the name is; with 4300 digits it goes through. *)
Example time_too_long_to_print :
  analyze_signal
    [("#", {| name := "m_data"; width := 8; type := "reg";
              values := [(10 ^ 4300, "1010")] |})] "m_data"
  = Raise ValueError /\
  analyze_signal
    [("#", {| name := "m_data"; width := 8; type := "reg";
              values := [(10 ^ 4300 - 1, "1010")] |})] "m_data"
  = Ok (Some {| shown_type := "reg"; shown_width := 8; transitions := 1;
                first_changes := [(10 ^ 4300 - 1, "1010")]; clock := None |}).
Proof. split; vm_compute; reflexivity. Qed.
